(** * Analog watch: the clock of [src/app/page.tsx]

    The page renders one dial with four hands: an hour hand per timezone
    (Europe/Warsaw and Europe/Athens), a minute hand and a second hand.
    This development embeds the logic of the page:

    - [getTimeForTimeZone], the timezone resolver with its fallback;
    - the rotation arithmetic of the [Clock] component;
    - the static per-hand metadata of the [Hand] component and the element
      it returns;
    - the interval that [Clock] starts when it is mounted and clears when it
      is unmounted.

    JavaScript numbers are IEEE 754 binary64 values.  They are modelled by
    Rocq's primitive floats, which have the same arithmetic, so an angle
    computed here is bit for bit the angle the page computes. *)

From Stdlib Require Import ZArith QArith Qabs List String Ascii Bool Lia.
From Stdlib Require Import PrimFloat Uint63 SpecFloat FloatOps.
Import ListNotations.

(** ** JavaScript numbers *)

Module JS.

(** The numbers the resolver produces are integers ([parseInt],
    [Date.prototype.getHours]) or [NaN].  An integer is kept as a [Z] until
    it enters floating-point arithmetic. *)
Inductive number : Type :=
| NaN
| Int (z : Z).

(** The double of an integer.  Exact below 2^53 in magnitude, which covers
    every field of a wall-clock time; the conversion goes through a 63-bit
    machine integer and is not meant for magnitudes of 2^63 and more. *)
Definition of_int (z : Z) : float :=
  if (z <? 0)%Z
  then PrimFloat.opp (PrimFloat.of_uint63 (Uint63.of_Z (- z)))
  else PrimFloat.of_uint63 (Uint63.of_Z z).

Definition toFloat (n : number) : float :=
  match n with
  | NaN => PrimFloat.nan
  | Int z => of_int z
  end.

(** [n % d] for an integer divisor [d]: the remainder takes the sign of the
    dividend, as [Z.rem] does. *)
Definition rem (n : number) (d : Z) : number :=
  match n with
  | NaN => NaN
  | Int z => if (d =? 0)%Z then NaN else Int (Z.rem z d)
  end.

(** [n === k] for an integer literal [k]. *)
Definition strict_eq (n : number) (k : Z) : bool :=
  match n with
  | NaN => false
  | Int z => (z =? k)%Z
  end.

End JS.

Import JS.

(** ** The rotation arithmetic of [Clock] (page.tsx, lines 162-184) *)

Record WallClock : Type := mkWallClock {
  hour : number;
  minute : number;
  second : number
}.

Section Rotations.

Local Open Scope float_scope.

Definition CSS_OFFSET : float := -90.

Definition secondRotation (second : number) : float :=
  (toFloat second / 60) * 360 + CSS_OFFSET.

Definition minuteRotation (minute second : number) : float :=
  (toFloat minute / 60) * 360 + (toFloat second / 60) * 6 + CSS_OFFSET.

Definition cetHourRotation (cetTime : WallClock) (minute : number) : float :=
  (toFloat (JS.rem (hour cetTime) 12) / 12) * 360
  + (toFloat minute / 60) * 30 + CSS_OFFSET.

Definition eetHourRotation (eetTime : WallClock) (minute : number) : float :=
  (toFloat (JS.rem (hour eetTime) 12) / 12) * 360
  + (toFloat minute / 60) * 30 + CSS_OFFSET.

(** The four angles of one render. *)
Record Rotations : Type := mkRotations {
  rot_cetHour : float;
  rot_eetHour : float;
  rot_minute : float;
  rot_second : float
}.

(** The body of [Clock] between the two resolver calls and the JSX: the
    minute and the second are destructured from [cetTime] only. *)
Definition rotations (cetTime eetTime : WallClock) : Rotations :=
  let minute := minute cetTime in
  let second := second cetTime in
  {| rot_cetHour := cetHourRotation cetTime minute;
     rot_eetHour := eetHourRotation eetTime minute;
     rot_minute := minuteRotation minute second;
     rot_second := secondRotation second |}.

(** *** The formulas of the specification, in the same arithmetic *)

Definition spec_second_angle (s : Z) : float :=
  (of_int s / 60) * 360 - 90.

Definition spec_minute_angle (m s : Z) : float :=
  (of_int m / 60) * 360 + (of_int s / 60) * 6 - 90.

Definition spec_hour_angle (h m : Z) : float :=
  (of_int (Z.rem h 12) / 12) * 360 + (of_int m / 60) * 30 - 90.

Definition spec_hour_gap (h1 h2 : Z) : float :=
  (of_int (Z.rem h1 12) - of_int (Z.rem h2 12)) / 12 * 360.

(** The seconds field one tick after it reads [s]. *)
Definition next_second (s : Z) : Z := ((s + 1) mod 60)%Z.

End Rotations.

(** ** Completions and the console

    A JavaScript computation either returns a value or throws, and it may
    write to the console on the way.  The resolver uses both, so its model
    threads the console and produces a completion. *)

Record Error : Type := mkError {
  error_name : string;
  error_message : string
}.

Inductive completion (A : Type) : Type :=
| Normal (a : A)
| Throw (e : Error).

Arguments Normal {A} a.
Arguments Throw {A} e.

(** One call of [console.error(text, e)]. *)
Record LogEntry : Type := mkLogEntry {
  log_text : string;
  log_error : Error
}.

Definition Console : Type := list LogEntry.

Definition Eff (A : Type) : Type := Console -> completion A * Console.

Definition ret {A : Type} (a : A) : Eff A :=
  fun k => (Normal a, k).

Definition bind {A B : Type} (c : Eff A) (f : A -> Eff B) : Eff B :=
  fun k =>
    match c k with
    | (Normal a, k') => f a k'
    | (Throw e, k') => (Throw e, k')
    end.

(** A platform call that may throw and does not touch the console. *)
Definition lift {A : Type} (c : completion A) : Eff A :=
  fun k => (c, k).

(** [try { body } catch (e) { handler }] *)
Definition try_catch {A : Type} (body : Eff A) (handler : Error -> Eff A) : Eff A :=
  fun k =>
    match body k with
    | (Normal a, k') => (Normal a, k')
    | (Throw e, k') => handler e k'
    end.

Definition console_error (text : string) (e : Error) : Eff unit :=
  fun k => (Normal tt, k ++ [mkLogEntry text e]).

Declare Scope eff_scope.
Delimit Scope eff_scope with eff.

Notation "x <- c ;; f" := (bind c (fun x => f))
  (at level 61, c at next level, right associativity) : eff_scope.
Notation "c ;;; f" := (bind c (fun _ => f))
  (at level 61, right associativity) : eff_scope.

(** ** [parseInt] on one string argument

    ECMAScript's [parseInt(string)] with the radix left out: leading white
    space is dropped, one sign is read, a [0x] or [0X] prefix selects radix
    16 and radix 10 is used otherwise, and the longest prefix of digits of
    that radix is the value; no digit at all gives [NaN].  Strings are taken
    as ASCII, the value is kept as the integer the digits denote, and the
    sign of a zero is not kept. *)

Definition is_white_space (c : ascii) : bool :=
  let n := nat_of_ascii c in
  ((n =? 9) || (n =? 10) || (n =? 11) || (n =? 12) || (n =? 13) || (n =? 32))%nat.

Fixpoint trim_start (s : string) : string :=
  match s with
  | String c rest => if is_white_space c then trim_start rest else s
  | EmptyString => EmptyString
  end.

Definition digit_value (c : ascii) : option Z :=
  let n := Z.of_nat (nat_of_ascii c) in
  if ((48 <=? n) && (n <=? 57))%Z then Some (n - 48)%Z
  else if ((97 <=? n) && (n <=? 122))%Z then Some (n - 87)%Z
  else if ((65 <=? n) && (n <=? 90))%Z then Some (n - 55)%Z
  else None.

(** The value of the longest prefix of radix-[R] digits, after the digits
    already read. *)
Fixpoint digits_prefix (R : Z) (s : string) (acc : option Z) : option Z :=
  match s with
  | EmptyString => acc
  | String c rest =>
      match digit_value c with
      | Some d =>
          if (d <? R)%Z
          then digits_prefix R rest
                 (Some (match acc with
                        | Some a => a * R + d
                        | None => d
                        end)%Z)
          else acc
      | None => acc
      end
  end.

Definition parseInt (input : string) : number :=
  let trimmed := trim_start input in
  let '(sign, unsigned) :=
    match trimmed with
    | String "-" rest => ((-1)%Z, rest)
    | String "+" rest => (1%Z, rest)
    | _ => (1%Z, trimmed)
    end in
  let '(R, body) :=
    match unsigned with
    | String "0" (String "x" rest) => (16%Z, rest)
    | String "0" (String "X" rest) => (16%Z, rest)
    | _ => (10%Z, unsigned)
    end in
  match digits_prefix R body None with
  | None => NaN
  | Some mathInt => Int (sign * mathInt)
  end.

(** ** The timezone resolver (page.tsx, lines 21-51) *)

Module Intl.

(** One element of the array [formatToParts] returns. *)
Record Part : Type := mkPart {
  type : string;
  value : string
}.

End Intl.

Section Resolver.

(** The platform: [Date] objects with their local-time getters, and
    [Intl.DateTimeFormat] at the locale and options the page passes.  The
    constructor throws on a timezone it does not recognise; the formatter
    it returns is the object's [formatToParts]. *)
Variable Date : Type.
Variable getHours getMinutes getSeconds : Date -> number.
Variable DateTimeFormat :
  string -> completion (Date -> completion (list Intl.Part)).

Definition getValue (parts : list Intl.Part) (type : string) : number :=
  match find (fun p => String.eqb (Intl.type p) type) parts with
  | Some part => parseInt (Intl.value part)
  | None => Int 0
  end.

(** Whether the formatter's output has a part of the given type. *)
Definition has_part (parts : list Intl.Part) (type : string) : bool :=
  existsb (fun p => String.eqb (Intl.type p) type) parts.

(** The local wall-clock time of the machine, as the [catch] block reads
    it. *)
Definition local_time (date : Date) : WallClock :=
  {| hour := getHours date; minute := getMinutes date; second := getSeconds date |}.

Local Open Scope eff_scope.
Local Open Scope string_scope.

Definition getTimeForTimeZone (timeZone : string) (date : Date) : Eff WallClock :=
  try_catch
    (formatter <- lift (DateTimeFormat timeZone) ;;
     parts <- lift (formatter date) ;;
     let hour := getValue parts "hour" in
     ret {| hour := if strict_eq hour 24 then Int 0 else hour;
            minute := getValue parts "minute";
            second := getValue parts "second" |})
    (fun e =>
       console_error ("Invalid timeZone: " ++ timeZone) e ;;;
       ret {| hour := getHours date;
              minute := getMinutes date;
              second := getSeconds date |}).

End Resolver.

Arguments local_time {Date} getHours getMinutes getSeconds date.
Arguments getTimeForTimeZone {Date} getHours getMinutes getSeconds
  DateTimeFormat timeZone date.

(** ** The [Hand] component (page.tsx, lines 57-138) *)

Inductive Length : Type :=
| Px (v : float)
| Percent (v : float).

(** [transformOrigin]: ['bottom center'] or [`${offset}px center`]. *)
Inductive Origin : Type :=
| BottomCenter
| OffsetCenter (offset : float).

(** [transform]: [translate(x, y) rotate(<deg>deg)]. *)
Record Transform : Type := mkTransform {
  translate_x : Length;
  translate_y : Length;
  rotate : float
}.

Record Style : Type := mkStyle {
  width : string;
  height : string;
  backgroundColor : option string;
  top : string;
  left : string;
  transformOrigin : Origin;
  transform : Transform;
  zIndex : Z
}.

(** What [Hand] returns: a bare [div] for the second hand, a [div] around an
    [img] for the others. *)
Inductive Element : Type :=
| Line (className : string) (style : Style)
| Picture (className : string) (style : Style) (src alt filter : string).

Definition style_of (e : Element) : Style :=
  match e with
  | Line _ st => st
  | Picture _ st _ _ _ => st
  end.

Record HandProps : Type := mkHandProps {
  type : string;
  rotation : float;
  imgSrc : string;
  alt : string;
  isSecondHand : bool
}.

(** The variables the [switch] assigns. *)
Record HandSpec : Type := mkHandSpec {
  spec_zIndex : Z;
  handLength : string;
  colorFilter : string;
  offset : float
}.

Section HandComponent.

Local Open Scope string_scope.

Definition hand_switch (type : string) : HandSpec :=
  if String.eqb type "cet-hour" then
    {| spec_zIndex := 37; handLength := "35%"; colorFilter := ""; offset := 30 |}
  else if String.eqb type "eet-hour" then
    {| spec_zIndex := 36; handLength := "35%"; colorFilter := ""; offset := 30 |}
  else if String.eqb type "second" then
    {| spec_zIndex := 40; handLength := "42%"; colorFilter := ""; offset := 0 |}
  else (* 'minute' and default *)
    {| spec_zIndex := 38; handLength := "40%"; colorFilter := ""; offset := 17.5 |}.

Definition Hand (props : HandProps) : Element :=
  let hs := hand_switch (type props) in
  if isSecondHand props then
    Line "absolute"
      {| height := handLength hs;
         width := "2px";
         backgroundColor := Some "#000";
         top := "50%";
         left := "50%";
         transformOrigin := BottomCenter;
         transform := mkTransform (Percent (-50)) (Percent (-100)) (rotation props);
         zIndex := spec_zIndex hs |}
  else
    Picture "absolute flex items-center"
      {| width := handLength hs;
         height := "50px";
         backgroundColor := None;
         top := "50%";
         left := "50%";
         transformOrigin := OffsetCenter (offset hs);
         transform :=
           mkTransform (Px (PrimFloat.opp (offset hs))) (Percent (-50))
             (rotation props);
         zIndex := spec_zIndex hs |}
      (imgSrc props) (alt props) (colorFilter hs).

End HandComponent.

(** ** Tailwind's z-index utilities

    The pivot dot takes its stacking level from the utility class [z-50] in
    its [className].  Tailwind's default scale gives [z-N] the declaration
    [z-index: N] for N in 0, 10, ..., 50. *)

Fixpoint words_from (current : string) (s : string) : list string :=
  match s with
  | EmptyString => [current]
  | String c rest =>
      if Ascii.eqb c " "%char
      then current :: words_from EmptyString rest
      else words_from (current ++ String c EmptyString) rest
  end.

Definition class_list (className : string) : list string :=
  filter (fun w => negb (String.eqb w EmptyString)) (words_from EmptyString className).

Definition tailwind_z_scale : list (string * Z) :=
  [("z-0", 0); ("z-10", 10); ("z-20", 20); ("z-30", 30); ("z-40", 40);
   ("z-50", 50)]%string%Z.

Definition utility_zIndex (class : string) : option Z :=
  option_map snd (find (fun e => String.eqb (fst e) class) tailwind_z_scale).

Fixpoint first_some {A B : Type} (f : A -> option B) (l : list A) : option B :=
  match l with
  | [] => None
  | a :: rest =>
      match f a with
      | Some b => Some b
      | None => first_some f rest
      end
  end.

Definition class_zIndex (className : string) : option Z :=
  first_some utility_zIndex (class_list className).

(** ** The [Clock] component (page.tsx, lines 143-221) *)

Record ClockView : Type := mkClockView {
  dial_className : string;
  backgroundImage : string;
  pivot_className : string;
  hands : list Element
}.

Section ClockComponent.

Local Open Scope string_scope.

(** The JSX of [Clock] for the resolved times of the two zones. *)
Definition render (cetTime eetTime : WallClock) : ClockView :=
  let r := rotations cetTime eetTime in
  {| dial_className :=
       "relative w-[90vw] max-w-sm aspect-square bg-cover bg-center rounded-full shadow-2xl";
     backgroundImage := "url('dial.png')";
     pivot_className :=
       "absolute top-1/2 left-1/2 -translate-x-1/2 -translate-y-1/2 w-4 h-4 bg-black rounded-full z-50";
     hands :=
       [ Hand {| type := "cet-hour"; rotation := rot_cetHour r;
                 imgSrc := "hourCET.png"; alt := "Central Europe Hour Hand";
                 isSecondHand := false |};
         Hand {| type := "eet-hour"; rotation := rot_eetHour r;
                 imgSrc := "hourEET.png"; alt := "South Europe Hour Hand";
                 isSecondHand := false |};
         Hand {| type := "minute"; rotation := rot_minute r;
                 imgSrc := "minute.png"; alt := "Minute Hand";
                 isSecondHand := false |};
         Hand {| type := "second"; rotation := rot_second r;
                 imgSrc := ""; alt := "Second Hand";
                 isSecondHand := true |} ] |}.

Variable Date : Type.
Variable getHours getMinutes getSeconds : Date -> number.
Variable DateTimeFormat :
  string -> completion (Date -> completion (list Intl.Part)).

Local Open Scope eff_scope.

(** One render of [Clock] with the state variable [time]. *)
Definition Clock (time : Date) : Eff ClockView :=
  cetTime <- getTimeForTimeZone getHours getMinutes getSeconds DateTimeFormat
               "Europe/Warsaw" time ;;
  eetTime <- getTimeForTimeZone getHours getMinutes getSeconds DateTimeFormat
               "Europe/Athens" time ;;
  ret (render cetTime eetTime).

End ClockComponent.

Definition hand_angles (v : ClockView) : list float :=
  map (fun e => rotate (transform (style_of e))) (hands v).

Definition hand_levels (v : ClockView) : list Z :=
  map (fun e => zIndex (style_of e)) (hands v).

(** ** A concrete platform

    A small platform on which the resolver and the component can be run: a
    [Date] is a number of seconds since midnight UTC on a machine whose local
    time is UTC, and the formatter knows the two zones of the page at their
    winter offsets.  As browsers do for [hour12: false] in [en-US], it writes
    midnight as hour 24. *)

Module Fixture.

Local Open Scope string_scope.
Local Open Scope Z_scope.

Definition Date : Type := Z.

Definition getHours (d : Date) : number := Int ((d / 3600) mod 24).
Definition getMinutes (d : Date) : number := Int ((d / 60) mod 60).
Definition getSeconds (d : Date) : number := Int (d mod 60).

Definition digit (n : Z) : string :=
  String (ascii_of_nat (48 + Z.to_nat n)) EmptyString.

Definition two_digits (n : Z) : string :=
  (digit (n / 10) ++ digit (n mod 10))%string.

Definition utc_offset (timeZone : string) : option Z :=
  if String.eqb timeZone "Europe/Warsaw" then Some 1
  else if String.eqb timeZone "Europe/Athens" then Some 2
  else None.

Definition parts_at (off : Z) (d : Date) : list Intl.Part :=
  let h := (d / 3600 + off) mod 24 in
  [ Intl.mkPart "hour" (if h =? 0 then "24" else two_digits h);
    Intl.mkPart "literal" ":";
    Intl.mkPart "minute" (two_digits ((d / 60) mod 60));
    Intl.mkPart "literal" ":";
    Intl.mkPart "second" (two_digits (d mod 60)) ].

Definition formatToParts (off : Z) (d : Date) : completion (list Intl.Part) :=
  Normal (parts_at off d).

(** The same output without its seconds part. *)
Definition parts_short (off : Z) (d : Date) : list Intl.Part :=
  filter (fun p => negb (String.eqb (Intl.type p) "second")) (parts_at off d).

Definition DateTimeFormat (timeZone : string) :
  completion (Date -> completion (list Intl.Part)) :=
  match utc_offset timeZone with
  | Some off => Normal (formatToParts off)
  | None =>
      Throw (mkError "RangeError" ("Invalid time zone specified: " ++ timeZone))
  end.

(** A formatter that leaves the seconds out. *)
Definition DateTimeFormat_short (timeZone : string) :
  completion (Date -> completion (list Intl.Part)) :=
  match utc_offset timeZone with
  | Some off =>
      Normal (fun d => Normal (parts_short off d))
  | None =>
      Throw (mkError "RangeError" ("Invalid time zone specified: " ++ timeZone))
  end.

Definition resolve (timeZone : string) (d : Date) : Eff WallClock :=
  getTimeForTimeZone getHours getMinutes getSeconds DateTimeFormat timeZone d.

Definition clock (d : Date) : Eff ClockView :=
  Clock Date getHours getMinutes getSeconds DateTimeFormat d.

(** A console that already holds a line. *)
Definition used_console : Console :=
  [mkLogEntry "Invalid timeZone: Mars/Olympus"
     (mkError "RangeError" "Invalid time zone specified: Mars/Olympus")].

(** 12:00:30 UTC, the same time one day later, and 23:15:07 UTC. *)
Definition noon_30s : Date := 12 * 3600 + 30.
Definition next_noon_30s : Date := 86400 + noon_30s.
Definition late_evening : Date := 23 * 3600 + 15 * 60 + 7.

End Fixture.

(** ** Decimal numerals

    The texts a formatter writes for numeric fields: a list of digits, most
    significant first. *)






(** The parts [getValue] is ever asked for. *)
Definition is_time_part (p : Intl.Part) : bool :=
  (String.eqb (Intl.type p) "hour" || String.eqb (Intl.type p) "minute"
   || String.eqb (Intl.type p) "second")%string.

(** ** Other platforms

    A platform without timezone data, whose constructor throws on every
    identifier; one whose formatter throws on a negative date, as
    [formatToParts] does on an invalid [Date]; one that knows a single zone;
    and one whose formatter writes no separators. *)

Module Degraded.

Local Open Scope string_scope.

Definition DateTimeFormat_none (timeZone : string) :
  completion (Fixture.Date -> completion (list Intl.Part)) :=
  Throw (mkError "RangeError" ("Invalid time zone specified: " ++ timeZone)).

Definition DateTimeFormat_strict (timeZone : string) :
  completion (Fixture.Date -> completion (list Intl.Part)) :=
  match Fixture.utc_offset timeZone with
  | Some off =>
      Normal (fun d =>
        if (d <? 0)%Z
        then Throw (mkError "RangeError" "Invalid time value")
        else Fixture.formatToParts off d)
  | None =>
      Throw (mkError "RangeError" ("Invalid time zone specified: " ++ timeZone))
  end.

(** Only Warsaw is known. *)
Definition DateTimeFormat_warsaw (timeZone : string) :
  completion (Fixture.Date -> completion (list Intl.Part)) :=
  if String.eqb timeZone "Europe/Warsaw" then Fixture.DateTimeFormat timeZone
  else Throw (mkError "RangeError" ("Invalid time zone specified: " ++ timeZone)).

(** Both zones are known, and the output has no literal parts. *)
Definition DateTimeFormat_bare (timeZone : string) :
  completion (Fixture.Date -> completion (list Intl.Part)) :=
  match Fixture.utc_offset timeZone with
  | Some off =>
      Normal (fun d => Normal (filter is_time_part (Fixture.parts_at off d)))
  | None =>
      Throw (mkError "RangeError" ("Invalid time zone specified: " ++ timeZone))
  end.

End Degraded.

(** ** The timer of [Clock] (page.tsx, lines 144-154)

    [useState(new Date())] gives the component its [time]; the effect, which
    has no dependencies and so runs once when the component is mounted,
    starts an interval of 1000 ms whose callback stores a new [Date], and its
    cleanup clears that interval when the component is unmounted. *)

Module Timer.

Record Interval : Type := mkInterval {
  interval_id : nat;
  delay : Z
}.

(** The intervals that are live in the window, and the identifier the next
    [setInterval] returns. *)
Record Window : Type := mkWindow {
  intervals : list Interval;
  next_id : nat
}.

Definition setInterval (delay : Z) (w : Window) : nat * Window :=
  (next_id w,
   {| intervals := intervals w ++ [mkInterval (next_id w) delay];
      next_id := S (next_id w) |}).

(** Clearing an identifier that is not live does nothing. *)
Definition clearInterval (id : nat) (w : Window) : Window :=
  {| intervals :=
       filter (fun i => negb (Nat.eqb (interval_id i) id)) (intervals w);
     next_id := next_id w |}.

Definition live (id : nat) (w : Window) : bool :=
  existsb (fun i => Nat.eqb (interval_id i) id) (intervals w).

(** Every identifier in use was handed out by [setInterval]. *)
Definition well_formed (w : Window) : Prop :=
  Forall (fun i => (interval_id i < next_id w)%nat) (intervals w).

Section Lifecycle.

Variable Date : Type.

(** One mounted [Clock]: its state variable and the [intervalId] its cleanup
    closes over. *)
Record Instance : Type := mkInstance {
  time : Date;
  intervalId : nat
}.

(** The first render and the effect, at the instant [now]. *)
Definition mount (now : Date) (w : Window) : Instance * Window :=
  let '(id, w') := setInterval 1000 w in
  ({| time := now; intervalId := id |}, w').

(** The interval callback: [setTime(new Date())]. *)
Definition tick (now : Date) (c : Instance) : Instance :=
  {| time := now; intervalId := intervalId c |}.

(** The window runs the callback of an interval only while it is live. *)
Definition fire (w : Window) (c : Instance) (now : Date) : Instance :=
  if live (intervalId c) w then tick now c else c.

(** The cleanup of the effect. *)
Definition unmount (c : Instance) (w : Window) : Window :=
  clearInterval (intervalId c) w.

End Lifecycle.

Arguments time {Date} i.
Arguments intervalId {Date} i.
Arguments mount {Date} now w.
Arguments tick {Date} now c.
Arguments fire {Date} w c now.
Arguments unmount {Date} c w.

(** A window in which some other script already runs an interval. *)
Definition busy_window : Window :=
  {| intervals := [mkInterval 3 250]; next_id := 5 |}.

End Timer.

(** ** The values of a bounded field *)

(** The integers 0, ..., n-1: the values of a wall-clock field. *)
Definition below (n : nat) : list Z := map Z.of_nat (seq 0 n).

(** Whether the minute-hand angle grows from second [s1] to second [s2] of
    minute [m], checked on every pair of one minute. *)
Definition minute_sweep_grows (m : Z) : bool :=
  forallb (fun s1 =>
    forallb (fun s2 =>
      implb (s1 <? s2)%Z
        (PrimFloat.ltb (minuteRotation (Int m) (Int s1))
                       (minuteRotation (Int m) (Int s2))))
      (below 60))
    (below 60).

(** ** The hands along the dial *)

(** The minute-hand angle [t] seconds after the full hour, and the hour-hand
    angle [t] minutes after 12 o'clock. *)
Definition minute_hand_at (t : Z) : float :=
  minuteRotation (Int (t / 60)) (Int (t mod 60)).

Definition hour_hand_at (t : Z) : float :=
  cetHourRotation (mkWallClock (Int (t / 60)) NaN NaN) (Int (t mod 60)).

(** Every element is below all the elements after it. *)
Fixpoint ascending (l : list float) : bool :=
  match l with
  | [] => true
  | x :: rest => forallb (PrimFloat.ltb x) rest && ascending rest
  end.

(** An angle within the turn that starts at 12 o'clock. *)
Definition in_turn (a : float) : bool :=
  (PrimFloat.leb (-90)%float a && PrimFloat.ltb a 270%float)%bool.

(** ** The rational value of a double *)

(** The number a finite double stands for; nothing for NaN and the
    infinities. *)
Definition float_value (x : float) : option Q :=
  match Prim2SF x with
  | S754_zero _ => Some 0%Q
  | S754_finite sign m e =>
      Some ((if sign then -1 else 1) * inject_Z (Z.pos m) * Qpower 2 e)%Q
  | S754_infinity _ => None
  | S754_nan => None
  end.

(** Whether [x] is finite and at most [eps] away from [q]. *)
Definition within (eps : Q) (x : float) (q : Q) : bool :=
  match float_value x with
  | Some v => Qle_bool (Qabs (v - q)) eps
  | None => false
  end.

(** The rounding allowed to an angle: 10^-13 of a degree. *)
Definition angle_tolerance : Q := 1 # 10000000000000.

(** The angles of a clock face, as exact numbers of degrees. *)
Definition ideal_second_angle (s : Z) : Q := inject_Z (6 * s - 90).

Definition ideal_minute_angle (m s : Z) : Q :=
  inject_Z (6 * m - 90) + inject_Z s / 10.

Definition ideal_hour_angle (h m : Z) : Q :=
  inject_Z (30 * (h mod 12) - 90) + inject_Z m / 2.

(** ** Where a hand turns

    A hand is an absolutely positioned box whose [top] and [left] are 50%, so
    its top-left corner sits at the centre of the dial.  CSS applies
    [translate(x, y) rotate(a)] about the transform origin: the point of the
    box at the origin is the one point the rotation leaves in place, and the
    translation carries it to origin + (x, y).  Percentages of the
    translation refer to the box's own width and height; ['bottom center'] is
    the point (50%, 100%) and [`${offset}px center`] the point
    (offset, 50%). *)

(** The value of a finite double, in lowest terms. *)
Definition exact_value (v : float) : option Q :=
  option_map Qred (float_value v).

Definition length_value (reference : Q) (l : Length) : option Q :=
  match l with
  | Px v => exact_value v
  | Percent v => option_map (fun p => p / 100 * reference) (exact_value v)
  end.

Definition origin_point (w h : Q) (o : Origin) : option (Q * Q) :=
  match o with
  | BottomCenter => Some (w / 2, h)
  | OffsetCenter off => option_map (fun x => (x, h / 2)) (exact_value off)
  end.

(** The place of the turning point of a box of width [w] and height [h],
    relative to the centre of the dial. *)
Definition pivot_offset (w h : Q) (st : Style) : option (Q * Q) :=
  match origin_point w h (transformOrigin st),
        length_value w (translate_x (transform st)),
        length_value h (translate_y (transform st)) with
  | Some (ox, oy), Some tx, Some ty => Some (ox + tx, oy + ty)
  | _, _, _ => None
  end.

(** * Properties *)

(** ** Bounded fields *)

Lemma below_In (n : nat) (z : Z) :
  (0 <= z < Z.of_nat n)%Z -> In z (below n).
Proof.
  intros Hz. unfold below.
  replace z with (Z.of_nat (Z.to_nat z)) by lia.
  apply in_map, in_seq. lia.
Qed.

Lemma Forall_below (b : Z) (P : Z -> Prop) :
  Forall P (below (Z.to_nat b)) ->
  forall z, (0 <= z < b)%Z -> P z.
Proof.
  intros Hall z Hz. rewrite Forall_forall in Hall.
  apply Hall, below_In. lia.
Qed.

Lemma forallb_below (b : Z) (P : Z -> bool) :
  forallb P (below (Z.to_nat b)) = true ->
  forall z, (0 <= z < b)%Z -> P z = true.
Proof.
  intros Hall z Hz. rewrite forallb_forall in Hall.
  apply Hall, below_In. lia.
Qed.

(** A goal quantified over bounded fields is split into its instances, and
    each instance is settled by evaluation. *)
Ltac enumerate :=
  intros;
  lazymatch goal with
  | H : (0 <= ?z < _)%Z |- _ =>
      revert z H;
      apply Forall_below;
      match goal with
      | |- Forall ?P (below ?n) =>
          let l := eval vm_compute in (below n) in change (Forall P l)
      end;
      repeat (apply Forall_cons; [ cbv beta; enumerate | ]);
      apply Forall_nil
  | |- _ => repeat split; vm_compute; reflexivity
  end.

Lemma rem_12_bounds (h : Z) :
  (0 <= h < 24)%Z -> (0 <= Z.rem h 12 < 12)%Z.
Proof. intros Hh. apply Z.rem_bound_pos; lia. Qed.

(** ** The timezone resolver *)

Lemma find_existsb_false {A : Type} (f : A -> bool) (l : list A) :
  existsb f l = false -> find f l = None.
Proof.
  induction l as [|a l IH]; simpl; [reflexivity|].
  destruct (f a); simpl; [discriminate | exact IH].
Qed.

Lemma getValue_missing (parts : list Intl.Part) (type : string) :
  has_part parts type = false -> getValue parts type = Int 0.
Proof.
  unfold has_part, getValue. intros H.
  now rewrite (find_existsb_false _ _ H).
Qed.

Example parseInt_samples :
  parseInt "24" = Int 24 /\ parseInt "07" = Int 7 /\ parseInt " 12 PM" = Int 12
  /\ parseInt "-0x1F" = Int (-31) /\ parseInt "" = NaN /\ parseInt "noon" = NaN.
Proof. repeat split; reflexivity. Qed.

(** A part whose text has no leading digit is a present part: its field is
    [NaN], not 0. *)
Example getValue_unparsable :
  getValue [Intl.mkPart "hour" "noon"] "hour" = NaN
  /\ getValue [Intl.mkPart "hour" "noon"] "minute" = Int 0.
Proof. split; reflexivity. Qed.

Section ResolverProperties.

Variable Date : Type.
Variable getHours getMinutes getSeconds : Date -> number.
Variable DateTimeFormat :
  string -> completion (Date -> completion (list Intl.Part)).

Local Open Scope string_scope.

Local Abbreviation resolve :=
  (getTimeForTimeZone getHours getMinutes getSeconds DateTimeFormat).
Local Abbreviation local_time := (local_time getHours getMinutes getSeconds).

(** What the [try] block returns from the parts of the formatter. *)
Lemma resolve_normal (timeZone : string) (date : Date) (k : Console)
    (formatter : Date -> completion (list Intl.Part)) (parts : list Intl.Part) :
  DateTimeFormat timeZone = Normal formatter ->
  formatter date = Normal parts ->
  resolve timeZone date k =
    (Normal {| hour := if strict_eq (getValue parts "hour") 24 then Int 0
                       else getValue parts "hour";
               minute := getValue parts "minute";
               second := getValue parts "second" |}, k).
Proof.
  intros Hctor Hfmt.
  unfold getTimeForTimeZone, try_catch, bind, lift, ret.
  rewrite Hctor, Hfmt. reflexivity.
Qed.

(** Whatever is thrown inside the [try] block is logged and answered with
    the local time. *)
Lemma resolve_thrown_constructor (timeZone : string) (date : Date)
    (k : Console) (e : Error) :
  DateTimeFormat timeZone = Throw e ->
  resolve timeZone date k =
    (Normal (local_time date),
     (k ++ [mkLogEntry ("Invalid timeZone: " ++ timeZone) e])%list).
Proof.
  intros Hctor.
  unfold getTimeForTimeZone, try_catch, bind, lift, ret, console_error.
  rewrite Hctor. reflexivity.
Qed.

Lemma resolve_thrown_format (timeZone : string) (date : Date) (k : Console)
    (formatter : Date -> completion (list Intl.Part)) (e : Error) :
  DateTimeFormat timeZone = Normal formatter ->
  formatter date = Throw e ->
  resolve timeZone date k =
    (Normal (local_time date),
     (k ++ [mkLogEntry ("Invalid timeZone: " ++ timeZone) e])%list).
Proof.
  intros Hctor Hfmt.
  unfold getTimeForTimeZone, try_catch, bind, lift, ret, console_error.
  rewrite Hctor, Hfmt. reflexivity.
Qed.

(** The resolver returns on every input: no exception leaves it. *)
Lemma resolve_returns (timeZone : string) (date : Date) (k : Console) :
  exists w k', resolve timeZone date k = (Normal w, k').
Proof.
  destruct (DateTimeFormat timeZone) as [formatter|e] eqn:Hctor.
  - destruct (formatter date) as [parts|e] eqn:Hfmt.
    + eexists _, _. eapply resolve_normal; eassumption.
    + eexists _, _. eapply resolve_thrown_format; eassumption.
  - eexists _, _. eapply resolve_thrown_constructor; eassumption.
Qed.

(** The value returned does not depend on the console it runs against. *)
Lemma resolve_console_irrelevant (timeZone : string) (date : Date)
    (k1 k2 : Console) :
  fst (resolve timeZone date k1) = fst (resolve timeZone date k2).
Proof.
  destruct (DateTimeFormat timeZone) as [formatter|e] eqn:Hctor.
  - destruct (formatter date) as [parts|e] eqn:Hfmt.
    + now rewrite !(resolve_normal _ _ _ _ _ Hctor Hfmt).
    + now rewrite !(resolve_thrown_format _ _ _ _ _ Hctor Hfmt).
  - now rewrite !(resolve_thrown_constructor _ _ _ _ Hctor).
Qed.

(** C2. A timezone identifier the platform does not recognise makes the
    [Intl.DateTimeFormat] constructor throw.  The resolver then returns
    normally: it appends one console entry whose text names the identifier,
    and its result is the machine's local hour, minute and second of the
    date. *)
Theorem invalid_timeZone_falls_back_to_local_time
    (timeZone : string) (date : Date) (k : Console) (e : Error) :
  DateTimeFormat timeZone = Throw e ->
  getTimeForTimeZone getHours getMinutes getSeconds DateTimeFormat
    timeZone date k =
    (Normal {| hour := getHours date;
               minute := getMinutes date;
               second := getSeconds date |},
     (k ++ [mkLogEntry ("Invalid timeZone: " ++ timeZone) e])%list).
Proof.
  intros Hctor. exact (resolve_thrown_constructor timeZone date k e Hctor).
Qed.

(** C5. On a recognised timezone whose formatter returns its parts, a raw
    hour of 24 becomes hour 0 in the returned wall clock, and any other raw
    hour is returned as it is. *)
Theorem raw_hour_24_becomes_0
    (timeZone : string) (date : Date) (k : Console)
    (formatter : Date -> completion (list Intl.Part)) (parts : list Intl.Part) :
  DateTimeFormat timeZone = Normal formatter ->
  formatter date = Normal parts ->
  exists w,
    getTimeForTimeZone getHours getMinutes getSeconds DateTimeFormat
      timeZone date k = (Normal w, k)
    /\ (getValue parts "hour" = Int 24 -> hour w = Int 0)
    /\ (getValue parts "hour" <> Int 24 -> hour w = getValue parts "hour").
Proof.
  intros Hctor Hfmt. eexists. split.
  - exact (resolve_normal timeZone date k formatter parts Hctor Hfmt).
  - simpl. split.
    + intros ->. reflexivity.
    + intros Hne. destruct (getValue parts "hour") as [|z]; [reflexivity|].
      simpl. destruct (Z.eqb_spec z 24) as [->|_]; [now elim Hne | reflexivity].
Qed.

(** C10. On the path where nothing is thrown, a component whose part is
    absent from the formatter's output is 0 in the returned wall clock, and
    the call returns a wall clock with its three fields. *)
Theorem missing_part_is_zero
    (timeZone : string) (date : Date) (k : Console)
    (formatter : Date -> completion (list Intl.Part)) (parts : list Intl.Part) :
  DateTimeFormat timeZone = Normal formatter ->
  formatter date = Normal parts ->
  exists w,
    getTimeForTimeZone getHours getMinutes getSeconds DateTimeFormat
      timeZone date k = (Normal w, k)
    /\ (has_part parts "hour" = false -> hour w = Int 0)
    /\ (has_part parts "minute" = false -> minute w = Int 0)
    /\ (has_part parts "second" = false -> second w = Int 0).
Proof.
  intros Hctor Hfmt. eexists. split.
  - exact (resolve_normal timeZone date k formatter parts Hctor Hfmt).
  - simpl. repeat split; intros Hmiss; rewrite (getValue_missing _ _ Hmiss);
      reflexivity.
Qed.

End ResolverProperties.

(** The resolver on the concrete platform: an unknown zone, midnight in
    Warsaw, and a formatter without seconds. *)

Lemma invalid_timeZone_falls_back_witness :
  Fixture.DateTimeFormat "Mars/Olympus"
    = Throw (mkError "RangeError" "Invalid time zone specified: Mars/Olympus")
  /\ Fixture.resolve "Mars/Olympus" Fixture.late_evening []
    = (Normal (mkWallClock (Int 23) (Int 15) (Int 7)),
       [mkLogEntry "Invalid timeZone: Mars/Olympus"
          (mkError "RangeError" "Invalid time zone specified: Mars/Olympus")]).
Proof.
  split; [reflexivity|].
  apply (invalid_timeZone_falls_back_to_local_time
           Fixture.Date Fixture.getHours Fixture.getMinutes Fixture.getSeconds
           Fixture.DateTimeFormat "Mars/Olympus" Fixture.late_evening []).
  reflexivity.
Defined.

Lemma raw_hour_24_witness :
  getValue (Fixture.parts_at 1 Fixture.late_evening) "hour" = Int 24
  /\ exists w,
       Fixture.resolve "Europe/Warsaw" Fixture.late_evening [] = (Normal w, [])
       /\ hour w = Int 0.
Proof.
  split; [reflexivity|].
  destruct (raw_hour_24_becomes_0
              Fixture.Date Fixture.getHours Fixture.getMinutes Fixture.getSeconds
              Fixture.DateTimeFormat "Europe/Warsaw" Fixture.late_evening []
              (Fixture.formatToParts 1)
              (Fixture.parts_at 1 Fixture.late_evening)
              eq_refl eq_refl) as (w & Hrun & H24 & _).
  exists w. split; [exact Hrun | apply H24; reflexivity].
Defined.

Lemma missing_part_is_zero_witness :
  has_part (Fixture.parts_short 2 Fixture.noon_30s) "second" = false
  /\ exists w,
       getTimeForTimeZone Fixture.getHours Fixture.getMinutes
         Fixture.getSeconds Fixture.DateTimeFormat_short
         "Europe/Athens" Fixture.noon_30s [] = (Normal w, [])
       /\ second w = Int 0.
Proof.
  split; [reflexivity|].
  destruct (missing_part_is_zero
              Fixture.Date Fixture.getHours Fixture.getMinutes Fixture.getSeconds
              Fixture.DateTimeFormat_short "Europe/Athens" Fixture.noon_30s []
              (fun d => Normal (Fixture.parts_short 2 d))
              (Fixture.parts_short 2 Fixture.noon_30s)
              eq_refl eq_refl) as (w & Hrun & _ & _ & Hsec).
  exists w. split; [exact Hrun | apply Hsec; reflexivity].
Defined.

(** ** The rotation arithmetic *)

Section RotationProperties.

Local Open Scope float_scope.

(** Both hour hands use one expression. *)
Lemma eetHourRotation_cetHourRotation (t : WallClock) (minute : number) :
  eetHourRotation t minute = cetHourRotation t minute.
Proof. reflexivity. Qed.

(** The hour-hand expression on a residue [r] of the hour modulo 12. *)
Lemma hour_residue_formula (r m : Z) :
  (0 <= r < 12)%Z -> (0 <= m < 60)%Z ->
  (of_int r / 12) * 360 + (of_int m / 60) * 30 + CSS_OFFSET
  = (of_int r / 12) * 360 + (of_int m / 60) * 30 - 90.
Proof. enumerate. Qed.

Lemma cetHourRotation_formula (h m : Z) (minute0 second0 : number) :
  (0 <= h < 24)%Z -> (0 <= m < 60)%Z ->
  cetHourRotation (mkWallClock (Int h) minute0 second0) (Int m)
  = spec_hour_angle h m.
Proof.
  intros Hh Hm.
  exact (hour_residue_formula (Z.rem h 12) m (rem_12_bounds h Hh) Hm).
Qed.

(** The gap between two hour-hand expressions on residues. *)
Lemma hour_residue_gap (r1 r2 m : Z) :
  (0 <= r1 < 12)%Z -> (0 <= r2 < 12)%Z -> (0 <= m < 60)%Z ->
  ((of_int r1 / 12) * 360 + (of_int m / 60) * 30 + CSS_OFFSET)
  - ((of_int r2 / 12) * 360 + (of_int m / 60) * 30 + CSS_OFFSET)
  = (of_int r1 - of_int r2) / 12 * 360.
Proof. enumerate. Qed.

(** C1. For hours in 0..23 and a minute in 0..59 read in the primary
    timezone, each hour hand is at ((h % 12)/12)*360 + (m/60)*30 - 90 for its
    own hour h and the primary minute m; the minute and second of the
    secondary timezone do not enter. *)
Theorem hour_hand_angles
    (h_cet h_eet m : Z) (s_cet m_eet s_eet : number) :
  (0 <= h_cet < 24)%Z -> (0 <= h_eet < 24)%Z -> (0 <= m < 60)%Z ->
  let r := rotations (mkWallClock (Int h_cet) (Int m) s_cet)
                     (mkWallClock (Int h_eet) m_eet s_eet) in
  rot_cetHour r = spec_hour_angle h_cet m
  /\ rot_eetHour r = spec_hour_angle h_eet m.
Proof.
  intros Hc He Hm. cbv zeta. unfold rotations. cbn [rot_cetHour rot_eetHour minute].
  split.
  - apply cetHourRotation_formula; assumption.
  - rewrite eetHourRotation_cetHourRotation.
    apply cetHourRotation_formula; assumption.
Qed.

Lemma hour_hand_angles_witness :
  let r := rotations (mkWallClock (Int 13) (Int 30) (Int 5))
                     (mkWallClock (Int 14) (Int 45) NaN) in
  rot_cetHour r = spec_hour_angle 13 30
  /\ rot_eetHour r = spec_hour_angle 14 30.
Proof.
  apply (hour_hand_angles 13 14 30 (Int 5) (Int 45) NaN); lia.
Defined.

(** C3. For a minute in 0..59 and a second in 0..59 the minute hand is at
    (m/60)*360 + (s/60)*6 - 90. *)
Theorem minute_hand_angle (m s : Z) (h_cet : number) (eetTime : WallClock) :
  (0 <= m < 60)%Z -> (0 <= s < 60)%Z ->
  rot_minute (rotations (mkWallClock h_cet (Int m) (Int s)) eetTime)
  = spec_minute_angle m s.
Proof.
  intros Hm Hs. unfold rotations. cbn [rot_minute minute second].
  revert m Hm s Hs. enumerate.
Qed.

Lemma minute_hand_angle_witness :
  rot_minute (rotations (mkWallClock (Int 13) (Int 0) (Int 30))
                        (mkWallClock (Int 14) (Int 0) (Int 30)))
  = spec_minute_angle 0 30.
Proof.
  apply (minute_hand_angle 0 30 (Int 13) (mkWallClock (Int 14) (Int 0) (Int 30)));
    lia.
Defined.

(** C4. For a second in 0..59 the second hand is at (s/60)*360 - 90, an
    angle in [-90, 270).  From one tick to the next the angle grows, except
    from second 59 to second 0, where it is back at -90: it wraps once a
    minute. *)
Theorem second_hand_angle (s : Z) (h_cet m_cet : number) (eetTime : WallClock) :
  (0 <= s < 60)%Z ->
  let angle s := rot_second (rotations (mkWallClock h_cet m_cet (Int s)) eetTime) in
  angle s = spec_second_angle s
  /\ (-90 <=? angle s) = true
  /\ (angle s <? 270) = true
  /\ (angle s <? angle (next_second s)) = negb (s =? 59)%Z
  /\ angle (next_second 59) = -90.
Proof.
  intros Hs. cbv zeta. unfold rotations. cbn [rot_second second].
  revert s Hs. enumerate.
Qed.

Lemma second_hand_angle_witness :
  let angle s :=
    rot_second (rotations (mkWallClock (Int 13) (Int 0) (Int s))
                          (mkWallClock (Int 14) (Int 0) (Int s))) in
  angle 59%Z = spec_second_angle 59
  /\ (-90 <=? angle 59%Z) = true
  /\ (angle 59%Z <? 270) = true
  /\ (angle 59%Z <? angle (next_second 59)) = negb (59 =? 59)%Z
  /\ angle (next_second 59) = -90.
Proof.
  apply (second_hand_angle 59 (Int 13) (Int 0)
           (mkWallClock (Int 14) (Int 0) (Int 59))).
  lia.
Defined.

(** C6. For hours h1 (primary) and h2 (secondary) in 0..23 and a shared
    minute in 0..59, the primary hour-hand angle minus the secondary one is
    ((h1 % 12) - (h2 % 12))/12 * 360, whatever the minute and the seconds
    are. *)
Theorem hour_hands_gap
    (h1 h2 m : Z) (s_cet m_eet s_eet : number) :
  (0 <= h1 < 24)%Z -> (0 <= h2 < 24)%Z -> (0 <= m < 60)%Z ->
  let r := rotations (mkWallClock (Int h1) (Int m) s_cet)
                     (mkWallClock (Int h2) m_eet s_eet) in
  rot_cetHour r - rot_eetHour r = spec_hour_gap h1 h2.
Proof.
  intros H1 H2 Hm. cbv zeta. unfold rotations. cbn [rot_cetHour rot_eetHour minute].
  unfold cetHourRotation, eetHourRotation, spec_hour_gap.
  cbn [hour JS.rem toFloat Z.eqb].
  apply hour_residue_gap; auto using rem_12_bounds.
Qed.

Lemma hour_hands_gap_witness :
  let r := rotations (mkWallClock (Int 23) (Int 59) (Int 12))
                     (mkWallClock (Int 0) (Int 59) (Int 12)) in
  rot_cetHour r - rot_eetHour r = spec_hour_gap 23 0.
Proof.
  apply (hour_hands_gap 23 0 59 (Int 12) (Int 59) (Int 12)); lia.
Defined.

Lemma minute_sweep_grows_all (m : Z) :
  (0 <= m < 60)%Z -> minute_sweep_grows m = true.
Proof. apply forallb_below. vm_compute. reflexivity. Qed.

(** C7. Within one minute m, the minute-hand angle at second s1 is below
    the angle at any later second s2 of that minute. *)
Theorem minute_hand_increasing (m s1 s2 : Z) (h_cet : number) (eetTime : WallClock) :
  (0 <= m < 60)%Z -> (0 <= s1 < s2)%Z -> (s2 < 60)%Z ->
  let angle s := rot_minute (rotations (mkWallClock h_cet (Int m) (Int s)) eetTime) in
  (angle s1 <? angle s2) = true.
Proof.
  intros Hm H12 H2. cbv zeta. unfold rotations. cbn [rot_minute minute second].
  pose proof (minute_sweep_grows_all m Hm) as Hall.
  unfold minute_sweep_grows in Hall.
  pose proof (forallb_below 60 _ Hall s1 ltac:(lia)) as Hs1. cbv beta in Hs1.
  pose proof (forallb_below 60 _ Hs1 s2 ltac:(lia)) as Hs2. cbv beta in Hs2.
  replace (s1 <? s2)%Z with true in Hs2 by (symmetry; apply Z.ltb_lt; lia).
  exact Hs2.
Qed.

Lemma minute_hand_increasing_witness :
  let angle s :=
    rot_minute (rotations (mkWallClock (Int 13) (Int 59) (Int s))
                          (mkWallClock (Int 14) (Int 59) (Int s))) in
  (angle 58%Z <? angle 59%Z) = true.
Proof.
  apply (minute_hand_increasing 59 58 59 (Int 13)
           (mkWallClock (Int 14) (Int 59) (Int 59))); lia.
Defined.

(** *** The computed angles against the exact ones

    The formulas divide before they multiply, so a computed angle can differ
    from the exact number of degrees in its last bits.  It never differs by
    more than [angle_tolerance], and the hour hands are exact. *)

Lemma second_hand_accuracy (s : Z) :
  (0 <= s < 60)%Z ->
  within angle_tolerance (secondRotation (Int s)) (ideal_second_angle s) = true.
Proof.
  revert s.
  apply (forallb_below 60
           (fun s => within angle_tolerance (secondRotation (Int s))
                       (ideal_second_angle s))).
  vm_compute. reflexivity.
Qed.

Lemma minute_hand_accuracy (m s : Z) :
  (0 <= m < 60)%Z -> (0 <= s < 60)%Z ->
  within angle_tolerance (minuteRotation (Int m) (Int s)) (ideal_minute_angle m s)
  = true.
Proof.
  intros Hm. revert s.
  apply (forallb_below 60
           (fun s => within angle_tolerance (minuteRotation (Int m) (Int s))
                       (ideal_minute_angle m s))).
  revert m Hm.
  apply (forallb_below 60
           (fun m => forallb (fun s => within angle_tolerance
                                         (minuteRotation (Int m) (Int s))
                                         (ideal_minute_angle m s))
                       (below (Z.to_nat 60)))).
  vm_compute. reflexivity.
Qed.

Lemma hour_hand_exact (h m : Z) (minute0 second0 : number) :
  (0 <= h < 24)%Z -> (0 <= m < 60)%Z ->
  within 0 (cetHourRotation (mkWallClock (Int h) minute0 second0) (Int m))
    (ideal_hour_angle h m) = true.
Proof.
  intros Hh. revert m.
  apply (forallb_below 60
           (fun m => within 0
                       (cetHourRotation (mkWallClock (Int h) minute0 second0) (Int m))
                       (ideal_hour_angle h m))).
  revert h Hh.
  apply (forallb_below 24
           (fun h => forallb (fun m => within 0
                                         (cetHourRotation
                                            (mkWallClock (Int h) minute0 second0)
                                            (Int m))
                                         (ideal_hour_angle h m))
                       (below (Z.to_nat 60)))).
  vm_compute. reflexivity.
Qed.

(** The second hand is off the exact angle at four seconds of the minute. *)
Example second_hand_rounding :
  filter (fun s => negb (within 0 (secondRotation (Int s)) (ideal_second_angle s)))
    (below 60)
  = [21; 31; 33; 42]%Z.
Proof. vm_compute. reflexivity. Qed.

(** *** The scenarios of the specification *)

Example scenario_13_00_30 :
  minuteRotation (Int 0) (Int 30) = -87 /\ secondRotation (Int 30) = 90.
Proof. split; reflexivity. Qed.

Example scenario_midnight :
  cetHourRotation (mkWallClock (Int 0) (Int 0) (Int 0)) (Int 0) = -90.
Proof. reflexivity. Qed.

Example scenario_14_30 :
  eetHourRotation (mkWallClock (Int 14) (Int 30) (Int 0)) (Int 30) = -15.
Proof. reflexivity. Qed.

End RotationProperties.

(** ** The component *)

Lemma hand_angles_render (cetTime eetTime : WallClock) :
  hand_angles (render cetTime eetTime)
  = let r := rotations cetTime eetTime in
    [rot_cetHour r; rot_eetHour r; rot_minute r; rot_second r].
Proof. reflexivity. Qed.

(** The stacking level of a hand is fixed by its type alone. *)
Lemma Hand_zIndex (props : HandProps) :
  zIndex (style_of (Hand props)) = spec_zIndex (hand_switch (type props)).
Proof. unfold Hand. destruct (isSecondHand props); reflexivity. Qed.

Lemma Hand_rotate (props : HandProps) :
  rotate (transform (style_of (Hand props))) = rotation props.
Proof. unfold Hand. destruct (isSecondHand props); reflexivity. Qed.

Section ClockProperties.

Variable Date : Type.
Variable getHours getMinutes getSeconds : Date -> number.
Variable DateTimeFormat :
  string -> completion (Date -> completion (list Intl.Part)).

Local Open Scope string_scope.

Local Abbreviation resolve :=
  (getTimeForTimeZone getHours getMinutes getSeconds DateTimeFormat).
Local Abbreviation run_Clock :=
  (Clock Date getHours getMinutes getSeconds DateTimeFormat).

Lemma Clock_runs (time : Date) (k k1 k2 : Console) (cetTime eetTime : WallClock) :
  resolve "Europe/Warsaw" time k = (Normal cetTime, k1) ->
  resolve "Europe/Athens" time k1 = (Normal eetTime, k2) ->
  run_Clock time k = (Normal (render cetTime eetTime), k2).
Proof.
  intros Hcet Heet. unfold Clock, bind, ret.
  rewrite Hcet, Heet. reflexivity.
Qed.

(** A render never throws. *)
Lemma Clock_returns (time : Date) (k : Console) :
  exists v k', run_Clock time k = (Normal v, k').
Proof.
  destruct (resolve_returns Date getHours getMinutes getSeconds DateTimeFormat
              "Europe/Warsaw" time k) as (cetTime & k1 & Hcet).
  destruct (resolve_returns Date getHours getMinutes getSeconds DateTimeFormat
              "Europe/Athens" time k1) as (eetTime & k2 & Heet).
  exists (render cetTime eetTime), k2.
  now apply Clock_runs with (k1 := k1).
Qed.

(** C8. Two renders, at any two instants and against any two consoles,
    whose resolved wall clocks are the same in both zones, return views with
    the same four hand angles: the angles computed from those wall clocks. *)
Theorem hand_angles_are_a_function_of_the_wall_clocks
    (time1 time2 : Date) (k1 k1a k1b k2 k2a k2b : Console)
    (cetTime eetTime : WallClock) :
  getTimeForTimeZone getHours getMinutes getSeconds DateTimeFormat
    "Europe/Warsaw" time1 k1 = (Normal cetTime, k1a) ->
  getTimeForTimeZone getHours getMinutes getSeconds DateTimeFormat
    "Europe/Athens" time1 k1a = (Normal eetTime, k1b) ->
  getTimeForTimeZone getHours getMinutes getSeconds DateTimeFormat
    "Europe/Warsaw" time2 k2 = (Normal cetTime, k2a) ->
  getTimeForTimeZone getHours getMinutes getSeconds DateTimeFormat
    "Europe/Athens" time2 k2a = (Normal eetTime, k2b) ->
  exists v1 v2,
    Clock Date getHours getMinutes getSeconds DateTimeFormat time1 k1
      = (Normal v1, k1b)
    /\ Clock Date getHours getMinutes getSeconds DateTimeFormat time2 k2
      = (Normal v2, k2b)
    /\ hand_angles v1 = hand_angles v2
    /\ hand_angles v1 =
         [ cetHourRotation cetTime (minute cetTime);
           eetHourRotation eetTime (minute cetTime);
           minuteRotation (minute cetTime) (second cetTime);
           secondRotation (second cetTime) ].
Proof.
  intros Hc1 He1 Hc2 He2.
  exists (render cetTime eetTime), (render cetTime eetTime).
  split; [ exact (Clock_runs time1 k1 k1a k1b cetTime eetTime Hc1 He1) | ].
  split; [ exact (Clock_runs time2 k2 k2a k2b cetTime eetTime Hc2 He2) | ].
  split; reflexivity.
Qed.

End ClockProperties.

Lemma hand_angles_function_witness :
  exists v1 v2,
    Fixture.clock Fixture.noon_30s [] = (Normal v1, [])
    /\ Fixture.clock Fixture.next_noon_30s Fixture.used_console
       = (Normal v2, Fixture.used_console)
    /\ hand_angles v1 = hand_angles v2
    /\ hand_angles v1 =
         [ cetHourRotation (mkWallClock (Int 13) (Int 0) (Int 30)) (Int 0);
           eetHourRotation (mkWallClock (Int 14) (Int 0) (Int 30)) (Int 0);
           minuteRotation (Int 0) (Int 30);
           secondRotation (Int 30) ].
Proof.
  apply (hand_angles_are_a_function_of_the_wall_clocks
           Fixture.Date Fixture.getHours Fixture.getMinutes Fixture.getSeconds
           Fixture.DateTimeFormat
           Fixture.noon_30s Fixture.next_noon_30s
           [] [] [] Fixture.used_console Fixture.used_console Fixture.used_console
           (mkWallClock (Int 13) (Int 0) (Int 30))
           (mkWallClock (Int 14) (Int 0) (Int 30)));
    reflexivity.
Defined.

(** C9. In every render the two hour hands are stacked below the minute
    hand, the minute hand below the second hand, and the pivot dot above all
    four hands. *)
Theorem stacking_order (cetTime eetTime : WallClock) :
  exists cet_hour eet_hour minute_hand second_hand pivot : Z,
    hand_levels (render cetTime eetTime)
      = [cet_hour; eet_hour; minute_hand; second_hand]
    /\ class_zIndex (pivot_className (render cetTime eetTime)) = Some pivot
    /\ (cet_hour < minute_hand)%Z
    /\ (eet_hour < minute_hand)%Z
    /\ (minute_hand < second_hand)%Z
    /\ (cet_hour < pivot)%Z
    /\ (eet_hour < pivot)%Z
    /\ (minute_hand < pivot)%Z
    /\ (second_hand < pivot)%Z.
Proof.
  exists 37%Z, 36%Z, 38%Z, 40%Z, 50%Z.
  split; [reflexivity|]. split; [reflexivity|]. lia.
Qed.

(** ** The timer *)

Section TimerProperties.

Import Timer.

Variable Date : Type.

Lemma filter_keeps_all {A : Type} (f : A -> bool) (l : list A) :
  Forall (fun a => f a = true) l -> filter f l = l.
Proof.
  induction 1 as [|a l Ha _ IH]; simpl; [reflexivity|].
  now rewrite Ha, IH.
Qed.

Lemma filter_drops_all {A : Type} (f : A -> bool) (l : list A) :
  Forall (fun a => f a = false) l -> filter f l = [].
Proof.
  induction 1 as [|a l Ha _ IH]; simpl; [reflexivity|].
  now rewrite Ha, IH.
Qed.

(** An identifier that was not handed out yet names no live interval. *)
Lemma fresh_id_not_in_use (w : Window) (id : nat) :
  well_formed w -> (next_id w <= id)%nat ->
  Forall (fun i => Nat.eqb (interval_id i) id = false) (intervals w).
Proof.
  unfold well_formed. intros Hwf Hid.
  eapply Forall_impl; [|exact Hwf]. cbv beta. intros i Hi.
  apply Nat.eqb_neq. lia.
Qed.

Lemma clear_fresh (w : Window) (id : nat) :
  well_formed w -> (next_id w <= id)%nat ->
  intervals (clearInterval id w) = intervals w.
Proof.
  intros Hwf Hid. unfold clearInterval. cbn [intervals].
  apply filter_keeps_all.
  eapply Forall_impl; [|exact (fresh_id_not_in_use w id Hwf Hid)].
  cbv beta. intros i ->. reflexivity.
Qed.

Lemma setInterval_well_formed (w : Window) (d : Z) :
  well_formed w -> well_formed (snd (setInterval d w)).
Proof.
  unfold well_formed, setInterval. cbn [snd intervals next_id].
  intros Hwf. apply Forall_app. split.
  - eapply Forall_impl; [|exact Hwf]. cbv beta. intros i Hi. lia.
  - constructor; [cbn; lia | constructor].
Qed.

Lemma clearInterval_well_formed (w : Window) (id : nat) :
  well_formed w -> well_formed (clearInterval id w).
Proof.
  unfold well_formed, clearInterval. cbn [intervals next_id].
  intros Hwf. rewrite Forall_forall in *. intros i Hi.
  apply filter_In in Hi. apply Hwf, Hi.
Qed.

Lemma live_false_iff (id : nat) (w : Window) :
  live id w = false
  <-> Forall (fun i => Nat.eqb (interval_id i) id = false) (intervals w).
Proof.
  unfold live. induction (intervals w) as [|i l IH]; simpl.
  - split; [constructor | reflexivity].
  - rewrite orb_false_iff, IH. split.
    + intros [H1 H2]. now constructor.
    + intros H. inversion H; subst. now split.
Qed.

Lemma live_clear_same (id : nat) (w : Window) :
  live id (clearInterval id w) = false.
Proof.
  apply live_false_iff. unfold clearInterval. cbn [intervals].
  rewrite Forall_forall. intros i Hi. apply filter_In in Hi.
  destruct Hi as [_ Hi]. now apply negb_true_iff in Hi.
Qed.

Lemma mount_unmount_intervals (now : Date) (w : Window) :
  well_formed w ->
  intervals (unmount (fst (mount now w)) (snd (mount now w))) = intervals w.
Proof.
  intros Hwf. unfold unmount, mount, setInterval, clearInterval.
  cbn [fst snd intervals intervalId next_id].
  rewrite filter_app. cbn [filter interval_id].
  rewrite Nat.eqb_refl. cbn [negb]. rewrite app_nil_r.
  exact (clear_fresh w (next_id w) Hwf (Nat.le_refl _)).
Qed.

Lemma fire_keeps_intervalId (w : Window) (nows : list Date) (c : Instance Date) :
  intervalId (fold_left (fire w) nows c) = intervalId c.
Proof.
  revert c. induction nows as [|n nows IH]; intros c; simpl; [reflexivity|].
  rewrite IH. unfold fire. now destruct (live (intervalId c) w).
Qed.

Lemma last_cons {A : Type} (l : list A) (a d : A) :
  last (a :: l) d = last l a.
Proof.
  revert a d. induction l as [|b l IH]; intros a d; [reflexivity|].
  change (last (a :: b :: l) d) with (last (b :: l) d).
  now rewrite (IH b d), (IH b a).
Qed.

Lemma fire_live_time (w : Window) (nows : list Date) (c : Instance Date) :
  live (intervalId c) w = true ->
  time (fold_left (fire w) nows c) = last nows (time c).
Proof.
  revert c. induction nows as [|n nows IH]; intros c Hlive; [reflexivity|].
  assert (Hfire : fire w c n = tick n c) by (unfold fire; now rewrite Hlive).
  cbn [fold_left]. rewrite Hfire, IH by exact Hlive.
  now rewrite last_cons.
Qed.

Lemma mount_live (now : Date) (w : Window) :
  live (intervalId (fst (mount now w))) (snd (mount now w)) = true.
Proof.
  unfold live, mount, setInterval. cbn [fst snd intervals intervalId].
  rewrite existsb_app. cbn. rewrite Nat.eqb_refl. now rewrite orb_true_r.
Qed.

(** X1. Mounting a clock, letting its interval fire any number of times
    and unmounting it leaves the window with the intervals it had before: the
    clock's interval is no longer live, and firing it again changes
    nothing. *)
Theorem unmount_stops_the_timer
    (w : Window) (now : Date) (nows : list Date) (later : Date) :
  well_formed w ->
  let c := fold_left (fire (snd (mount now w))) nows (fst (mount now w)) in
  let w' := unmount c (snd (mount now w)) in
  intervals w' = intervals w
  /\ live (intervalId c) w' = false
  /\ fire w' c later = c.
Proof.
  intros Hwf c w'.
  assert (Hid : intervalId c = intervalId (fst (mount now w)))
    by apply fire_keeps_intervalId.
  assert (Hw' : w' = unmount (fst (mount now w)) (snd (mount now w)))
    by (unfold w', unmount; now rewrite Hid).
  assert (Hdead : live (intervalId c) w' = false).
  { rewrite Hw', Hid. apply live_clear_same. }
  split; [| split].
  - rewrite Hw'. now apply mount_unmount_intervals.
  - exact Hdead.
  - unfold fire. now rewrite Hdead.
Qed.

(** X2. While a clock is mounted the window holds exactly one interval
    with the clock's identifier, its delay is 1000 ms, and after any ticks
    the clock's [time] is the instant of the latest tick (the instant of the
    mount if there was none). *)
Theorem mounted_clock_ticks_every_second
    (w : Window) (now : Date) (nows : list Date) :
  well_formed w ->
  let w1 := snd (mount now w) in
  let c := fold_left (fire w1) nows (fst (mount now w)) in
  filter (fun i => Nat.eqb (interval_id i) (intervalId c)) (intervals w1)
    = [mkInterval (intervalId c) 1000]
  /\ time c = last nows now
  /\ well_formed w1.
Proof.
  intros Hwf w1 c.
  assert (Hid : intervalId c = next_id w)
    by (unfold c; now rewrite fire_keeps_intervalId).
  split; [| split].
  - rewrite Hid. unfold w1, mount, setInterval. cbn [snd intervals].
    rewrite filter_app. cbn [filter interval_id]. rewrite Nat.eqb_refl.
    rewrite (filter_drops_all _ (intervals w)
               (fresh_id_not_in_use w (next_id w) Hwf (Nat.le_refl _))).
    reflexivity.
  - unfold c. rewrite fire_live_time by apply mount_live. reflexivity.
  - exact (setInterval_well_formed w 1000 Hwf).
Qed.

(** X3. Two clocks mounted in one window have different intervals.
    Unmounting either one leaves the interval of the other live, and
    unmounting both, in either order, restores the intervals the window had
    before. *)
Theorem clocks_own_their_timers (w : Window) (now1 now2 : Date) :
  well_formed w ->
  let c1 := fst (mount now1 w) in
  let w1 := snd (mount now1 w) in
  let c2 := fst (mount now2 w1) in
  let w2 := snd (mount now2 w1) in
  intervalId c1 <> intervalId c2
  /\ live (intervalId c2) (unmount c1 w2) = true
  /\ live (intervalId c1) (unmount c2 w2) = true
  /\ intervals (unmount c2 (unmount c1 w2)) = intervals w
  /\ intervals (unmount c1 (unmount c2 w2)) = intervals w.
Proof.
  intros Hwf c1 w1 c2 w2.
  pose proof (fresh_id_not_in_use w (next_id w) Hwf (Nat.le_refl _)) as H0.
  pose proof (fresh_id_not_in_use w (S (next_id w)) Hwf (Nat.le_succ_diag_r _))
    as H1.
  assert (K0 : filter (fun i => negb (Nat.eqb (interval_id i) (next_id w)))
                 (intervals w) = intervals w).
  { apply filter_keeps_all. eapply Forall_impl; [|exact H0].
    cbv beta. intros i ->. reflexivity. }
  assert (K1 : filter (fun i => negb (Nat.eqb (interval_id i) (S (next_id w))))
                 (intervals w) = intervals w).
  { apply filter_keeps_all. eapply Forall_impl; [|exact H1].
    cbv beta. intros i ->. reflexivity. }
  assert (E01 : Nat.eqb (next_id w) (S (next_id w)) = false)
    by (apply Nat.eqb_neq; lia).
  assert (E10 : Nat.eqb (S (next_id w)) (next_id w) = false)
    by (apply Nat.eqb_neq; lia).
  subst c1 c2 w2 w1.
  unfold unmount, live, mount, setInterval, clearInterval.
  cbn [fst snd intervals intervalId next_id].
  repeat split; try lia;
    do 3 (rewrite ?filter_app, ?existsb_app;
          cbn [filter existsb interval_id negb app orb];
          rewrite ?E01, ?E10, ?Nat.eqb_refl;
          cbn [filter existsb interval_id negb app orb]);
    rewrite ?app_nil_r, ?K0, ?K1, ?K0, ?K1, ?orb_true_r; reflexivity.
Qed.

End TimerProperties.

Lemma unmount_stops_the_timer_witness :
  let c := fold_left (Timer.fire (snd (Timer.mount 10%Z Timer.busy_window)))
             [11%Z; 12%Z] (fst (Timer.mount 10%Z Timer.busy_window)) in
  let w' := Timer.unmount c (snd (Timer.mount 10%Z Timer.busy_window)) in
  Timer.intervals w' = Timer.intervals Timer.busy_window
  /\ Timer.live (Timer.intervalId c) w' = false
  /\ Timer.fire w' c 13%Z = c.
Proof.
  apply (unmount_stops_the_timer Z Timer.busy_window 10%Z [11%Z; 12%Z] 13%Z).
  constructor; [cbn; lia | constructor].
Defined.

Lemma mounted_clock_ticks_witness :
  let w1 := snd (Timer.mount 10%Z Timer.busy_window) in
  let c := fold_left (Timer.fire w1) [11%Z; 12%Z]
             (fst (Timer.mount 10%Z Timer.busy_window)) in
  filter (fun i => Nat.eqb (Timer.interval_id i) (Timer.intervalId c))
    (Timer.intervals w1)
    = [Timer.mkInterval (Timer.intervalId c) 1000]
  /\ Timer.time c = last [11%Z; 12%Z] 10%Z
  /\ Timer.well_formed w1.
Proof.
  apply (mounted_clock_ticks_every_second Z Timer.busy_window 10%Z [11%Z; 12%Z]).
  constructor; [cbn; lia | constructor].
Defined.

Lemma clocks_own_their_timers_witness :
  let c1 := fst (Timer.mount 10%Z Timer.busy_window) in
  let w1 := snd (Timer.mount 10%Z Timer.busy_window) in
  let c2 := fst (Timer.mount 20%Z w1) in
  let w2 := snd (Timer.mount 20%Z w1) in
  Timer.intervalId c1 <> Timer.intervalId c2
  /\ Timer.live (Timer.intervalId c2) (Timer.unmount c1 w2) = true
  /\ Timer.live (Timer.intervalId c1) (Timer.unmount c2 w2) = true
  /\ Timer.intervals (Timer.unmount c2 (Timer.unmount c1 w2))
     = Timer.intervals Timer.busy_window
  /\ Timer.intervals (Timer.unmount c1 (Timer.unmount c2 w2))
     = Timer.intervals Timer.busy_window.
Proof.
  apply (clocks_own_their_timers Z Timer.busy_window 10%Z 20%Z).
  constructor; [cbn; lia | constructor].
Defined.

(** ** Reading the formatter's output *)





Lemma find_filter_agree {A : Type} (f g : A -> bool) (l : list A) :
  (forall a, f a = true -> g a = true) ->
  find f (filter g l) = find f l.
Proof.
  intros Hfg. induction l as [|a l IH]; [reflexivity|].
  cbn [filter find]. destruct (f a) eqn:Hf.
  - rewrite (Hfg a Hf). cbn [find]. now rewrite Hf.
  - destruct (g a); [cbn [find]; rewrite Hf|]; exact IH.
Qed.

Lemma getValue_time_parts (parts : list Intl.Part) (type : string) :
  (type = "hour" \/ type = "minute" \/ type = "second")%string ->
  getValue (filter is_time_part parts) type = getValue parts type.
Proof.
  intros Hty. unfold getValue. rewrite find_filter_agree; [reflexivity|].
  intros p Hp. apply String.eqb_eq in Hp. unfold is_time_part. rewrite Hp.
  destruct Hty as [H | [H | H]]; rewrite H; reflexivity.
Qed.


Section ResolverReading.

Variable Date : Type.
Variable getHours getMinutes getSeconds : Date -> number.
Variable DateTimeFormat :
  string -> completion (Date -> completion (list Intl.Part)).

Local Open Scope string_scope.

Local Abbreviation resolve :=
  (getTimeForTimeZone getHours getMinutes getSeconds DateTimeFormat).


(** X5. The resolver returns on every platform, zone, date and console: no
    exception leaves it.  It keeps what the console held and appends at most
    one entry, whose text names the zone. *)
Theorem resolver_never_throws (timeZone : string) (date : Date) (k : Console) :
  exists w entries,
    resolve timeZone date k = (Normal w, (k ++ entries)%list)
    /\ (List.length entries <= 1)%nat
    /\ Forall (fun e => log_text e = "Invalid timeZone: " ++ timeZone) entries.
Proof.
  destruct (DateTimeFormat timeZone) as [formatter|e] eqn:Hctor.
  - destruct (formatter date) as [parts|e] eqn:Hfmt.
    + eexists _, []. rewrite app_nil_r. split; [|split].
      * eapply resolve_normal; eassumption.
      * cbn. lia.
      * constructor.
    + eexists _, [_]. split; [|split].
      * eapply resolve_thrown_format; eassumption.
      * cbn. lia.
      * repeat constructor.
  - eexists _, [_]. split; [|split].
    + eapply resolve_thrown_constructor; eassumption.
    + cbn. lia.
    + repeat constructor.
Qed.

(** X6. When the zone is recognised but [formatToParts] throws, as it does
    on an invalid date, the resolver also answers with the local time, and
    the console entry it writes still reads "Invalid timeZone" with the
    zone. *)
Theorem format_failure_falls_back_to_local_time
    (timeZone : string) (date : Date) (k : Console)
    (formatter : Date -> completion (list Intl.Part)) (e : Error) :
  DateTimeFormat timeZone = Normal formatter ->
  formatter date = Throw e ->
  resolve timeZone date k =
    (Normal {| hour := getHours date;
               minute := getMinutes date;
               second := getSeconds date |},
     (k ++ [mkLogEntry ("Invalid timeZone: " ++ timeZone) e])%list).
Proof.
  intros Hctor Hfmt.
  unfold getTimeForTimeZone, try_catch, bind, lift, ret, console_error.
  rewrite Hctor, Hfmt. reflexivity.
Qed.

(** X7. When the raw hour of the formatter is between 0 and 24, the hour
    of the returned wall clock is that hour modulo 24, a number from 0 to
    23. *)
Theorem hour_is_normalised_modulo_24
    (timeZone : string) (date : Date) (k : Console)
    (formatter : Date -> completion (list Intl.Part)) (parts : list Intl.Part)
    (h : Z) :
  DateTimeFormat timeZone = Normal formatter ->
  formatter date = Normal parts ->
  getValue parts "hour" = Int h ->
  (0 <= h <= 24)%Z ->
  exists w h',
    resolve timeZone date k = (Normal w, k)
    /\ hour w = Int h' /\ (0 <= h' < 24)%Z /\ h' = (h mod 24)%Z.
Proof.
  intros Hctor Hfmt Hraw Hh.
  eexists _, (h mod 24)%Z. split; [|split; [|split]].
  - eapply resolve_normal; eassumption.
  - cbn [hour]. rewrite Hraw. cbn [strict_eq].
    destruct (Z.eqb_spec h 24) as [->|Hne]; [reflexivity|].
    now rewrite Z.mod_small by lia.
  - apply Z.mod_pos_bound. lia.
  - reflexivity.
Qed.

End ResolverReading.

(** X8. When the formatter's output has several parts of one type, the
    first one is read: a value looked up in two lists put together comes
    from the first list if it has a part of that type, and from the second
    list otherwise. *)
Theorem first_part_of_a_type_wins
    (parts1 parts2 : list Intl.Part) (type : string) :
  getValue (parts1 ++ parts2) type
  = if has_part parts1 type then getValue parts1 type
    else getValue parts2 type.
Proof.
  unfold getValue, has_part.
  induction parts1 as [|p parts1 IH]; [reflexivity|].
  cbn [app find existsb].
  destruct (String.eqb (Intl.type p) type); [reflexivity | exact IH].
Qed.

(** X9. The wall clock depends on the hour, minute and second parts only:
    two formatters whose outputs agree once every other part is removed make
    the resolver return the same result. *)
Theorem resolver_ignores_other_parts
    (Date : Type) (getHours getMinutes getSeconds : Date -> number)
    (DateTimeFormat1 DateTimeFormat2 :
       string -> completion (Date -> completion (list Intl.Part)))
    (timeZone : string) (date : Date) (k : Console)
    (formatter1 formatter2 : Date -> completion (list Intl.Part))
    (parts1 parts2 : list Intl.Part) :
  DateTimeFormat1 timeZone = Normal formatter1 ->
  formatter1 date = Normal parts1 ->
  DateTimeFormat2 timeZone = Normal formatter2 ->
  formatter2 date = Normal parts2 ->
  filter is_time_part parts1 = filter is_time_part parts2 ->
  getTimeForTimeZone getHours getMinutes getSeconds DateTimeFormat1
    timeZone date k
  = getTimeForTimeZone getHours getMinutes getSeconds DateTimeFormat2
      timeZone date k.
Proof.
  intros Hc1 Hf1 Hc2 Hf2 Hsame.
  rewrite (resolve_normal Date getHours getMinutes getSeconds DateTimeFormat1
             timeZone date k formatter1 parts1 Hc1 Hf1).
  rewrite (resolve_normal Date getHours getMinutes getSeconds DateTimeFormat2
             timeZone date k formatter2 parts2 Hc2 Hf2).
  rewrite <- (getValue_time_parts parts1 "hour") by auto.
  rewrite <- (getValue_time_parts parts1 "minute") by auto.
  rewrite <- (getValue_time_parts parts1 "second") by auto.
  rewrite Hsame.
  rewrite !getValue_time_parts by auto.
  reflexivity.
Qed.


Lemma format_failure_witness :
  getTimeForTimeZone Fixture.getHours Fixture.getMinutes Fixture.getSeconds
    Degraded.DateTimeFormat_strict "Europe/Warsaw" (-1)%Z []
  = (Normal (mkWallClock (Int 23) (Int 59) (Int 59)),
     [mkLogEntry "Invalid timeZone: Europe/Warsaw"
        (mkError "RangeError" "Invalid time value")]).
Proof.
  apply (format_failure_falls_back_to_local_time
           Fixture.Date Fixture.getHours Fixture.getMinutes Fixture.getSeconds
           Degraded.DateTimeFormat_strict "Europe/Warsaw" (-1)%Z []
           (fun d => if (d <? 0)%Z
                     then Throw (mkError "RangeError" "Invalid time value")
                     else Fixture.formatToParts 1 d));
    reflexivity.
Defined.

Lemma hour_is_normalised_witness :
  exists w h',
    Fixture.resolve "Europe/Warsaw" Fixture.late_evening [] = (Normal w, [])
    /\ hour w = Int h' /\ (0 <= h' < 24)%Z /\ h' = (24 mod 24)%Z.
Proof.
  apply (hour_is_normalised_modulo_24
           Fixture.Date Fixture.getHours Fixture.getMinutes Fixture.getSeconds
           Fixture.DateTimeFormat "Europe/Warsaw" Fixture.late_evening []
           (Fixture.formatToParts 1) (Fixture.parts_at 1 Fixture.late_evening)
           24%Z);
    try reflexivity; lia.
Defined.

Lemma resolver_ignores_other_parts_witness :
  Fixture.resolve "Europe/Athens" Fixture.late_evening []
  = getTimeForTimeZone Fixture.getHours Fixture.getMinutes Fixture.getSeconds
      Degraded.DateTimeFormat_bare "Europe/Athens" Fixture.late_evening [].
Proof.
  apply (resolver_ignores_other_parts
           Fixture.Date Fixture.getHours Fixture.getMinutes Fixture.getSeconds
           Fixture.DateTimeFormat Degraded.DateTimeFormat_bare
           "Europe/Athens" Fixture.late_evening []
           (Fixture.formatToParts 2)
           (fun d => Normal (filter is_time_part (Fixture.parts_at 2 d)))
           (Fixture.parts_at 2 Fixture.late_evening)
           (filter is_time_part (Fixture.parts_at 2 Fixture.late_evening)));
    reflexivity.
Defined.

(** ** The hands along the dial *)

Lemma ascending_nth (l : list float) :
  ascending l = true ->
  forall (i j : nat) (d : float),
    (i < j < List.length l)%nat ->
    PrimFloat.ltb (nth i l d) (nth j l d) = true.
Proof.
  induction l as [|x l IH]; intros Hasc i j d Hij; cbn in Hij; [lia|].
  cbn [ascending] in Hasc. apply andb_true_iff in Hasc.
  destruct Hasc as [Hx Hl].
  destruct j as [|j]; [lia|]. destruct i as [|i]; cbn [nth].
  - rewrite forallb_forall in Hx. apply Hx, nth_In. lia.
  - apply IH; [exact Hl | lia].
Qed.

Lemma nth_map_below (f : Z -> float) (n i : nat) (d : float) :
  (i < n)%nat -> nth i (map f (below n)) d = f (Z.of_nat i).
Proof.
  intros Hi. unfold below. rewrite map_map.
  rewrite (nth_indep _ d (f (Z.of_nat 0)))
    by (rewrite length_map, length_seq; exact Hi).
  rewrite (map_nth (fun k => f (Z.of_nat k)) (seq 0 n) 0%nat i).
  now rewrite seq_nth.
Qed.

Lemma ascending_below (f : Z -> float) (n : nat) :
  ascending (map f (below n)) = true ->
  forall t1 t2 : Z,
    (0 <= t1 < t2)%Z -> (t2 < Z.of_nat n)%Z ->
    PrimFloat.ltb (f t1) (f t2) = true.
Proof.
  intros Hasc t1 t2 H12 H2.
  pose proof (ascending_nth _ Hasc (Z.to_nat t1) (Z.to_nat t2) PrimFloat.zero)
    as H.
  rewrite !nth_map_below in H by lia.
  rewrite !Z2Nat.id in H by lia.
  apply H. unfold below. rewrite !length_map, length_seq. lia.
Qed.

Lemma minute_hand_ascending :
  ascending (map minute_hand_at (below 3600)) = true.
Proof. vm_compute. reflexivity. Qed.

Lemma hour_hand_ascending :
  ascending (map hour_hand_at (below 720)) = true.
Proof. vm_compute. reflexivity. Qed.

Lemma div_mod_60 (a b : Z) :
  (0 <= b < 60)%Z -> ((60 * a + b) / 60 = a /\ (60 * a + b) mod 60 = b)%Z.
Proof.
  intros Hb. split.
  - symmetry. apply Z.div_unique with b; lia.
  - symmetry. apply Z.mod_unique with a; lia.
Qed.

Section DialProperties.

Local Open Scope float_scope.

(** X10. Over one hour the minute hand only moves forward: of two times
    of the hour, given as minute and second, the later one has the larger
    minute-hand angle, also across the minute boundaries. *)
Theorem minute_hand_advances_over_the_hour (m1 s1 m2 s2 : Z) :
  (0 <= m1 < 60)%Z -> (0 <= s1 < 60)%Z ->
  (0 <= m2 < 60)%Z -> (0 <= s2 < 60)%Z ->
  (60 * m1 + s1 < 60 * m2 + s2)%Z ->
  (minuteRotation (Int m1) (Int s1) <? minuteRotation (Int m2) (Int s2)) = true.
Proof.
  intros Hm1 Hs1 Hm2 Hs2 Hlt.
  pose proof (ascending_below minute_hand_at 3600 minute_hand_ascending
                (60 * m1 + s1) (60 * m2 + s2)) as H.
  unfold minute_hand_at in H.
  destruct (div_mod_60 m1 s1 Hs1) as [D1 R1].
  destruct (div_mod_60 m2 s2 Hs2) as [D2 R2].
  rewrite D1, R1, D2, R2 in H. apply H; lia.
Qed.

(** X11. Over the twelve hours of the dial the hour hand only moves
    forward: of two times, given as hour 0..11 and minute, the later one has
    the larger hour-hand angle. *)
Theorem hour_hand_increasing_over_the_dial
    (h1 m1 h2 m2 : Z) (minute1 second1 minute2 second2 : number) :
  (0 <= h1 < 12)%Z -> (0 <= m1 < 60)%Z ->
  (0 <= h2 < 12)%Z -> (0 <= m2 < 60)%Z ->
  (60 * h1 + m1 < 60 * h2 + m2)%Z ->
  (cetHourRotation (mkWallClock (Int h1) minute1 second1) (Int m1)
   <? eetHourRotation (mkWallClock (Int h2) minute2 second2) (Int m2)) = true.
Proof.
  intros Hh1 Hm1 Hh2 Hm2 Hlt.
  pose proof (ascending_below hour_hand_at 720 hour_hand_ascending
                (60 * h1 + m1) (60 * h2 + m2)) as H.
  unfold hour_hand_at in H.
  destruct (div_mod_60 h1 m1 Hm1) as [D1 R1].
  destruct (div_mod_60 h2 m2 Hm2) as [D2 R2].
  rewrite D1, R1, D2, R2 in H. apply H; lia.
Qed.


(** X13. The hour hand advances by exactly half a degree with every minute
    of the twelve hours, also from minute 59 to the next full hour. *)
Theorem hour_hand_half_degree_per_minute (t : Z) :
  (0 <= t < 719)%Z ->
  hour_hand_at (t + 1) - hour_hand_at t = 0.5.
Proof. enumerate. Qed.

End DialProperties.

Section TurnProperties.

Local Open Scope float_scope.

Lemma hour_in_turn (h m : Z) (minute0 second0 : number) :
  (0 <= h < 24)%Z -> (0 <= m < 60)%Z ->
  in_turn (cetHourRotation (mkWallClock (Int h) minute0 second0) (Int m)) = true.
Proof.
  intros Hh Hm.
  assert (T : forallb (fun h => forallb (fun m => in_turn (hour_hand_at (60 * h + m)))
                                  (below (Z.to_nat 60)))
                (below (Z.to_nat 24)) = true)
    by (vm_compute; reflexivity).
  pose proof (forallb_below 24 _ T h Hh) as Th. cbv beta in Th.
  pose proof (forallb_below 60 _ Th m Hm) as Tm. cbv beta in Tm.
  unfold hour_hand_at in Tm.
  destruct (div_mod_60 h m Hm) as [D R]. rewrite D, R in Tm. exact Tm.
Qed.

Lemma minute_in_turn (m s : Z) :
  (0 <= m < 60)%Z -> (0 <= s < 60)%Z ->
  in_turn (minuteRotation (Int m) (Int s)) = true.
Proof.
  intros Hm Hs.
  assert (T : forallb (fun m => forallb (fun s => in_turn (minuteRotation (Int m) (Int s)))
                                  (below (Z.to_nat 60)))
                (below (Z.to_nat 60)) = true)
    by (vm_compute; reflexivity).
  pose proof (forallb_below 60 _ T m Hm) as Tm. cbv beta in Tm.
  exact (forallb_below 60 _ Tm s Hs).
Qed.

Lemma second_in_turn (s : Z) :
  (0 <= s < 60)%Z -> in_turn (secondRotation (Int s)) = true.
Proof.
  intros Hs.
  assert (T : forallb (fun s => in_turn (secondRotation (Int s)))
                (below (Z.to_nat 60)) = true)
    by (vm_compute; reflexivity).
  exact (forallb_below 60 _ T s Hs).
Qed.

(** X14. For a wall clock with hours in 0..23 and minutes and seconds in
    0..59, each of the four angles of the render lies in [-90, 270): one
    turn of the dial, counted from 12 o'clock. *)
Theorem all_hands_stay_in_one_turn
    (h_cet h_eet m s : Z) (m_eet s_eet : number) :
  (0 <= h_cet < 24)%Z -> (0 <= h_eet < 24)%Z ->
  (0 <= m < 60)%Z -> (0 <= s < 60)%Z ->
  forallb in_turn
    (hand_angles (render (mkWallClock (Int h_cet) (Int m) (Int s))
                         (mkWallClock (Int h_eet) m_eet s_eet))) = true.
Proof.
  intros Hc He Hm Hs. rewrite hand_angles_render. cbv zeta.
  unfold rotations. cbn [rot_cetHour rot_eetHour rot_minute rot_second
                         minute second forallb].
  apply andb_true_iff. split;
    [ exact (hour_in_turn h_cet m (Int m) (Int s) Hc Hm) | ].
  apply andb_true_iff. split;
    [ exact (hour_in_turn h_eet m m_eet s_eet He Hm) | ].
  apply andb_true_iff. split; [ exact (minute_in_turn m s Hm Hs) | ].
  apply andb_true_iff. split; [ exact (second_in_turn s Hs) | reflexivity ].
Qed.

(** X15. With hours in 0..23 and a shared minute in 0..59, the two hour
    hands are at the same angle exactly when the two hours agree modulo
    12. *)
Theorem hour_hands_overlap_iff_hours_agree
    (h1 h2 m : Z) (s_cet m_eet s_eet : number) :
  (0 <= h1 < 24)%Z -> (0 <= h2 < 24)%Z -> (0 <= m < 60)%Z ->
  let r := rotations (mkWallClock (Int h1) (Int m) s_cet)
                     (mkWallClock (Int h2) m_eet s_eet) in
  (rot_cetHour r =? rot_eetHour r) = (h1 mod 12 =? h2 mod 12)%Z.
Proof.
  intros H1 H2 Hm. cbv zeta. unfold rotations.
  cbn [rot_cetHour rot_eetHour minute].
  assert (T : forallb (fun h1 => forallb (fun h2 => forallb (fun m =>
                Bool.eqb
                  (cetHourRotation (mkWallClock (Int h1) NaN NaN) (Int m)
                   =? eetHourRotation (mkWallClock (Int h2) NaN NaN) (Int m))
                  (h1 mod 12 =? h2 mod 12)%Z)
                (below (Z.to_nat 60))) (below (Z.to_nat 24)))
                (below (Z.to_nat 24)) = true)
    by (vm_compute; reflexivity).
  pose proof (forallb_below 24 _ T h1 H1) as T1. cbv beta in T1.
  pose proof (forallb_below 24 _ T1 h2 H2) as T2. cbv beta in T2.
  pose proof (forallb_below 60 _ T2 m Hm) as T3. cbv beta in T3.
  apply eqb_prop in T3. exact T3.
Qed.

End TurnProperties.

(** ** The hands *)

Section HandProperties.

Local Open Scope string_scope.

Lemma hand_switch_cases (ty : string) :
  hand_switch ty = hand_switch "cet-hour"
  \/ hand_switch ty = hand_switch "eet-hour"
  \/ hand_switch ty = hand_switch "second"
  \/ hand_switch ty = hand_switch "minute".
Proof.
  destruct (String.eqb ty "cet-hour") eqn:E1;
    [left; unfold hand_switch; rewrite E1; reflexivity|].
  destruct (String.eqb ty "eet-hour") eqn:E2;
    [right; left; unfold hand_switch; rewrite E1, E2; reflexivity|].
  destruct (String.eqb ty "second") eqn:E3;
    [right; right; left; unfold hand_switch; rewrite E1, E2, E3; reflexivity|].
  right; right; right. unfold hand_switch. rewrite E1, E2, E3. reflexivity.
Qed.

(** X16. A hand whose type is none of 'cet-hour', 'eet-hour' and 'second'
    is rendered as the minute hand is: the same element as with the type
    'minute'. *)
Theorem unknown_hand_type_is_a_minute_hand
    (ty : string) (angle : float) (src text : string) (line : bool) :
  ty <> "cet-hour" -> ty <> "eet-hour" -> ty <> "second" ->
  Hand (mkHandProps ty angle src text line)
  = Hand (mkHandProps "minute" angle src text line).
Proof.
  intros Hc He Hs.
  assert (Hsw : hand_switch ty = hand_switch "minute").
  { apply String.eqb_neq in Hc, He, Hs.
    unfold hand_switch. rewrite Hc, He, Hs. reflexivity. }
  unfold Hand. cbn [type rotation imgSrc alt isSecondHand].
  now rewrite Hsw.
Qed.

(** X17. Whatever its properties and whatever the size of its box, a hand
    turns about the centre of the dial: its turning point is at offset
    (0, 0) from the point where [top: 50%] and [left: 50%] put the box. *)
Theorem every_hand_turns_about_the_centre (props : HandProps) (w h : Q) :
  exists x y,
    pivot_offset w h (style_of (Hand props)) = Some (x, y)
    /\ x == 0 /\ y == 0.
Proof.
  destruct props as [ty angle src text line].
  unfold Hand. cbn [type rotation imgSrc alt isSecondHand].
  destruct line; cbn [style_of]; unfold pivot_offset;
    cbn [transformOrigin transform translate_x translate_y origin_point
         length_value].
  - repeat match goal with
           | |- context [exact_value ?v] =>
               let r := eval vm_compute in (exact_value v) in
               change (exact_value v) with r
           end.
    cbn [option_map]. eexists _, _. split; [reflexivity|]. split; field.
  - destruct (hand_switch_cases ty) as [H | [H | [H | H]]]; rewrite H;
      match goal with
      | |- context [hand_switch ?t] =>
          let r := eval vm_compute in (hand_switch t) in
          change (hand_switch t) with r
      end;
      cbn [offset];
      repeat match goal with
             | |- context [exact_value ?v] =>
                 let r := eval vm_compute in (exact_value v) in
                 change (exact_value v) with r
             end;
      cbn [option_map]; eexists _, _; (split; [reflexivity|]); split; field.
Qed.

End HandProperties.

(** ** A render on a failing platform *)

Lemma resolve_same_zone
    (Date : Type) (getHours getMinutes getSeconds : Date -> number)
    (DateTimeFormat1 DateTimeFormat2 :
       string -> completion (Date -> completion (list Intl.Part)))
    (timeZone : string) (date : Date) (k1 k2 : Console) :
  DateTimeFormat1 timeZone = DateTimeFormat2 timeZone ->
  fst (getTimeForTimeZone getHours getMinutes getSeconds DateTimeFormat1
         timeZone date k1)
  = fst (getTimeForTimeZone getHours getMinutes getSeconds DateTimeFormat2
           timeZone date k2).
Proof.
  intros Hsame.
  unfold getTimeForTimeZone, try_catch, bind, lift, ret, console_error.
  rewrite Hsame.
  destruct (DateTimeFormat2 timeZone) as [formatter|e]; [|reflexivity].
  destruct (formatter date); reflexivity.
Qed.

Section RenderProperties.

Variable Date : Type.
Variable getHours getMinutes getSeconds : Date -> number.
Variable DateTimeFormat :
  string -> completion (Date -> completion (list Intl.Part)).

Local Open Scope string_scope.

Local Abbreviation resolve :=
  (getTimeForTimeZone getHours getMinutes getSeconds DateTimeFormat).
Local Abbreviation run_Clock :=
  (Clock Date getHours getMinutes getSeconds DateTimeFormat).

Lemma resolve_appends (timeZone : string) (date : Date) (k : Console) :
  exists w entries,
    resolve timeZone date k = (Normal w, (k ++ entries)%list)
    /\ (List.length entries <= 1)%nat.
Proof.
  destruct (DateTimeFormat timeZone) as [formatter|e] eqn:Hctor.
  - destruct (formatter date) as [parts|e] eqn:Hfmt.
    + eexists _, []. rewrite app_nil_r. split; [|cbn; lia].
      eapply resolve_normal; eassumption.
    + eexists _, [_]. split; [|cbn; lia].
      eapply resolve_thrown_format; eassumption.
  - eexists _, [_]. split; [|cbn; lia].
    eapply resolve_thrown_constructor; eassumption.
Qed.

(** X18. A render returns on every platform, instant and console: no
    exception leaves [Clock].  The view has the four hands, and the console
    keeps what it held and gains at most two entries. *)
Theorem render_never_throws (time : Date) (k : Console) :
  exists v entries,
    run_Clock time k = (Normal v, (k ++ entries)%list)
    /\ List.length (hands v) = 4%nat
    /\ (List.length entries <= 2)%nat.
Proof.
  destruct (resolve_appends "Europe/Warsaw" time k) as (cet & e1 & Hcet & L1).
  destruct (resolve_appends "Europe/Athens" time (k ++ e1)%list)
    as (eet & e2 & Heet & L2).
  exists (render cet eet), (e1 ++ e2)%list. split; [|split].
  - rewrite app_assoc.
    exact (Clock_runs Date getHours getMinutes getSeconds DateTimeFormat
             time k _ _ cet eet Hcet Heet).
  - reflexivity.
  - rewrite length_app. lia.
Qed.

(** X19. When the platform recognises neither zone, the render shows the
    machine's local time on every hand: both hour hands are at the same
    angle, and the console gains one entry per zone, Warsaw first. *)
Theorem unknown_zones_show_local_time
    (time : Date) (k : Console) (e1 e2 : Error) :
  DateTimeFormat "Europe/Warsaw" = Throw e1 ->
  DateTimeFormat "Europe/Athens" = Throw e2 ->
  let local := local_time getHours getMinutes getSeconds time in
  run_Clock time k
  = (Normal (render local local),
     (k ++ [mkLogEntry "Invalid timeZone: Europe/Warsaw" e1;
            mkLogEntry "Invalid timeZone: Europe/Athens" e2])%list)
  /\ rot_cetHour (rotations local local) = rot_eetHour (rotations local local).
Proof.
  intros H1 H2 local. split; [|reflexivity].
  pose proof (resolve_thrown_constructor Date getHours getMinutes getSeconds
                DateTimeFormat "Europe/Warsaw" time k e1 H1) as Hcet.
  pose proof (resolve_thrown_constructor Date getHours getMinutes getSeconds
                DateTimeFormat "Europe/Athens" time
                (k ++ [mkLogEntry "Invalid timeZone: Europe/Warsaw" e1])%list
                e2 H2) as Heet.
  rewrite <- app_assoc in Heet. cbn [app] in Heet.
  exact (Clock_runs Date getHours getMinutes getSeconds DateTimeFormat
           time k _ _ _ _ Hcet Heet).
Qed.

End RenderProperties.

(** X20. The primary hour hand, the minute hand and the second hand follow
    the primary zone alone: on two platforms that treat Europe/Warsaw alike,
    renders of one instant give these three hands the same angles, whatever
    the platforms do with Europe/Athens and whatever the consoles hold. *)
Theorem primary_zone_drives_three_hands
    (Date : Type) (getHours getMinutes getSeconds : Date -> number)
    (DateTimeFormat1 DateTimeFormat2 :
       string -> completion (Date -> completion (list Intl.Part)))
    (time : Date) (k1 k2 : Console) :
  DateTimeFormat1 "Europe/Warsaw"%string
  = DateTimeFormat2 "Europe/Warsaw"%string ->
  exists v1 v2 k1' k2',
    Clock Date getHours getMinutes getSeconds DateTimeFormat1 time k1
      = (Normal v1, k1')
    /\ Clock Date getHours getMinutes getSeconds DateTimeFormat2 time k2
      = (Normal v2, k2')
    /\ nth 0 (hand_angles v1) PrimFloat.nan = nth 0 (hand_angles v2) PrimFloat.nan
    /\ nth 2 (hand_angles v1) PrimFloat.nan = nth 2 (hand_angles v2) PrimFloat.nan
    /\ nth 3 (hand_angles v1) PrimFloat.nan = nth 3 (hand_angles v2) PrimFloat.nan.
Proof.
  intros Hsame.
  destruct (resolve_returns Date getHours getMinutes getSeconds DateTimeFormat1
              "Europe/Warsaw" time k1) as (cet1 & k1a & Hc1).
  destruct (resolve_returns Date getHours getMinutes getSeconds DateTimeFormat1
              "Europe/Athens" time k1a) as (eet1 & k1b & He1).
  destruct (resolve_returns Date getHours getMinutes getSeconds DateTimeFormat2
              "Europe/Warsaw" time k2) as (cet2 & k2a & Hc2).
  destruct (resolve_returns Date getHours getMinutes getSeconds DateTimeFormat2
              "Europe/Athens" time k2a) as (eet2 & k2b & He2).
  pose proof (resolve_same_zone Date getHours getMinutes getSeconds
                DateTimeFormat1 DateTimeFormat2 "Europe/Warsaw" time k1 k2 Hsame)
    as Hfst.
  rewrite Hc1, Hc2 in Hfst. cbn [fst] in Hfst. injection Hfst as ->.
  exists (render cet2 eet1), (render cet2 eet2), k1b, k2b.
  split; [|split].
  - exact (Clock_runs Date getHours getMinutes getSeconds DateTimeFormat1
             time k1 k1a k1b cet2 eet1 Hc1 He1).
  - exact (Clock_runs Date getHours getMinutes getSeconds DateTimeFormat2
             time k2 k2a k2b cet2 eet2 Hc2 He2).
  - rewrite !hand_angles_render. repeat split; reflexivity.
Qed.

(** X21. A seconds field that is [NaN], as [parseInt] gives for a part
    without a leading digit, makes the angles of the second hand and of the
    minute hand [NaN], for every minute in 0..59 and whatever the hours
    are. *)
Theorem unparsable_seconds_give_NaN_angles
    (m : Z) (h_cet : number) (eetTime : WallClock) :
  (0 <= m < 60)%Z ->
  let r := rotations (mkWallClock h_cet (Int m) NaN) eetTime in
  rot_second r = PrimFloat.nan /\ rot_minute r = PrimFloat.nan.
Proof.
  intros Hm. cbv zeta. unfold rotations. cbn [rot_second rot_minute minute second].
  revert m Hm. enumerate.
Qed.

(** The properties above on concrete inputs. *)

Lemma minute_hand_over_the_hour_witness :
  PrimFloat.ltb (minuteRotation (Int 9) (Int 59)) (minuteRotation (Int 10) (Int 0))
  = true.
Proof.
  apply (minute_hand_advances_over_the_hour 9 59 10 0); lia.
Defined.

Lemma hour_hand_over_the_dial_witness :
  PrimFloat.ltb
    (cetHourRotation (mkWallClock (Int 2) (Int 59) (Int 0)) (Int 59))
    (eetHourRotation (mkWallClock (Int 3) (Int 0) NaN) (Int 0))
  = true.
Proof.
  apply (hour_hand_increasing_over_the_dial 2 59 3 0 (Int 59) (Int 0) (Int 0) NaN);
    lia.
Defined.


Lemma hour_hand_half_degree_witness :
  PrimFloat.sub (hour_hand_at (59 + 1)) (hour_hand_at 59) = 0.5%float.
Proof. apply (hour_hand_half_degree_per_minute 59). lia. Defined.

Lemma all_hands_in_one_turn_witness :
  forallb in_turn
    (hand_angles (render (mkWallClock (Int 23) (Int 59) (Int 59))
                         (mkWallClock (Int 0) (Int 59) (Int 59)))) = true.
Proof.
  apply (all_hands_stay_in_one_turn 23 0 59 59 (Int 59) (Int 59)); lia.
Defined.

Lemma hour_hands_overlap_witness :
  let r := rotations (mkWallClock (Int 1) (Int 20) (Int 0))
                     (mkWallClock (Int 13) (Int 20) (Int 0)) in
  PrimFloat.eqb (rot_cetHour r) (rot_eetHour r) = (1 mod 12 =? 13 mod 12)%Z.
Proof.
  apply (hour_hands_overlap_iff_hours_agree 1 13 20 (Int 0) (Int 20) (Int 0));
    lia.
Defined.

Lemma unknown_hand_type_witness :
  Hand (mkHandProps "hour" 45%float "hour.png" "Hour Hand" false)
  = Hand (mkHandProps "minute" 45%float "hour.png" "Hour Hand" false).
Proof.
  apply (unknown_hand_type_is_a_minute_hand "hour" 45%float "hour.png"
           "Hour Hand" false);
    discriminate.
Defined.

Lemma unknown_zones_witness :
  let local := local_time Fixture.getHours Fixture.getMinutes Fixture.getSeconds
                 Fixture.late_evening in
  Clock Fixture.Date Fixture.getHours Fixture.getMinutes Fixture.getSeconds
    Degraded.DateTimeFormat_none Fixture.late_evening []
  = (Normal (render local local),
     [mkLogEntry "Invalid timeZone: Europe/Warsaw"
        (mkError "RangeError" "Invalid time zone specified: Europe/Warsaw");
      mkLogEntry "Invalid timeZone: Europe/Athens"
        (mkError "RangeError" "Invalid time zone specified: Europe/Athens")])
  /\ rot_cetHour (rotations local local) = rot_eetHour (rotations local local).
Proof.
  apply (unknown_zones_show_local_time
           Fixture.Date Fixture.getHours Fixture.getMinutes Fixture.getSeconds
           Degraded.DateTimeFormat_none Fixture.late_evening []
           (mkError "RangeError" "Invalid time zone specified: Europe/Warsaw")
           (mkError "RangeError" "Invalid time zone specified: Europe/Athens"));
    reflexivity.
Defined.

Lemma primary_zone_witness :
  exists v1 v2 k1' k2',
    Fixture.clock Fixture.noon_30s [] = (Normal v1, k1')
    /\ Clock Fixture.Date Fixture.getHours Fixture.getMinutes Fixture.getSeconds
         Degraded.DateTimeFormat_warsaw Fixture.noon_30s Fixture.used_console
       = (Normal v2, k2')
    /\ nth 0 (hand_angles v1) PrimFloat.nan = nth 0 (hand_angles v2) PrimFloat.nan
    /\ nth 2 (hand_angles v1) PrimFloat.nan = nth 2 (hand_angles v2) PrimFloat.nan
    /\ nth 3 (hand_angles v1) PrimFloat.nan = nth 3 (hand_angles v2) PrimFloat.nan.
Proof.
  apply (primary_zone_drives_three_hands
           Fixture.Date Fixture.getHours Fixture.getMinutes Fixture.getSeconds
           Fixture.DateTimeFormat Degraded.DateTimeFormat_warsaw
           Fixture.noon_30s [] Fixture.used_console).
  reflexivity.
Defined.

Lemma unparsable_seconds_witness :
  let r := rotations (mkWallClock (Int 13) (Int 7) (parseInt "ss"))
                     (mkWallClock (Int 14) (Int 7) (parseInt "ss")) in
  rot_second r = PrimFloat.nan /\ rot_minute r = PrimFloat.nan.
Proof.
  apply (unparsable_seconds_give_NaN_angles 7 (Int 13)
           (mkWallClock (Int 14) (Int 7) (parseInt "ss"))).
  lia.
Defined.
